(** * services-agent: the MCP dispatcher of [server_v2.py] and the tool
      handlers of [server.py] and [server_v2.py]

    The development embeds the hand-rolled JSON-RPC dispatcher
    [MCPServer._handle_mcp_request], the registration decorator
    [MCPServer.tool] and the five tool handlers of both server files, and
    proves the properties of the protocol layer over that embedding.

    Conventions.
    - A Python [str] is a Rocq [string] holding its UTF-8 encoding.
    - Python objects that travel through the dispatcher (decoded JSON
      documents, handler arguments and results) are the trees of [value].
    - A Python call either returns or raises: [outcome].
    - [self] is threaded explicitly: a method is a function
      [MCPServer -> outcome _ * MCPServer]. *)

From Stdlib Require Import List String Ascii ZArith Lia Bool.
From Stdlib Require Import DecimalString DecimalPos DecimalZ.
Import ListNotations.
Open Scope string_scope.
Set Warnings "-register-all".

(* ================================================================= *)
(** ** Python values *)

(** Decoded JSON and handler results.  [VObj text] is any other Python
    object, known only by [str(obj) = text]; [json.dumps] reaches it through
    [default=str].  Floats are left out. *)
Inductive value : Type :=
| VNone
| VBool (b : bool)
| VInt (n : Z)
| VStr (s : string)
| VList (l : list value)
| VDict (d : list (string * value))
| VObj (text : string).

(** A [dict] with [str] keys, in insertion order. *)
Definition pydict (A : Type) : Type := list (string * A).

Fixpoint dict_get {A} (d : pydict A) (k : string) : option A :=
  match d with
  | [] => None
  | (k', v) :: d' => if String.eqb k' k then Some v else dict_get d' k
  end.

Definition dict_has {A} (d : pydict A) (k : string) : bool :=
  match dict_get d k with Some _ => true | None => false end.

(** [d[k] = v]: an existing key keeps its position, a new key goes last. *)
Fixpoint dict_set {A} (d : pydict A) (k : string) (v : A) : pydict A :=
  match d with
  | [] => [(k, v)]
  | (k', v') :: d' =>
      if String.eqb k' k then (k', v) :: d' else (k', v') :: dict_set d' k v
  end.

Definition dict_keys {A} (d : pydict A) : list string := map fst d.
Definition dict_values {A} (d : pydict A) : list A := map snd d.

(** [bool(v)], as tested by [if not data]. *)
Definition truthy (v : value) : bool :=
  match v with
  | VNone => false
  | VBool b => b
  | VInt n => negb (n =? 0)%Z
  | VStr s => match s with EmptyString => false | _ => true end
  | VList l => match l with [] => false | _ => true end
  | VDict d => match d with [] => false | _ => true end
  | VObj _ => true
  end.

(** [type(v).__name__]. *)
Definition type_name (v : value) : string :=
  match v with
  | VNone => "NoneType"
  | VBool _ => "bool"
  | VInt _ => "int"
  | VStr _ => "str"
  | VList _ => "list"
  | VDict _ => "dict"
  | VObj _ => "object"
  end.

(** [v == "literal"]: only a [str] equals a [str]. *)
Definition py_eq_str (v : value) (lit : string) : bool :=
  match v with
  | VStr s => String.eqb s lit
  | _ => false
  end.

Definition decimal (n : Z) : string := NilZero.string_of_int (Z.to_int n).

(* ================================================================= *)
(** ** The text of [json.dumps(v, ensure_ascii=False, default=str)] *)

Definition dquote : ascii := "034"%char.
Definition quoted (s : string) : string := String dquote (s ++ String dquote "").

Definition hex_digit (n : N) : ascii :=
  if (n <? 10)%N then ascii_of_N (48 + n) else ascii_of_N (87 + n).

(** The encoder's [ESCAPE_DCT]: the quote, the backslash, the five short
    escapes, and [\u00xx] for the other characters below 0x20.  With
    [ensure_ascii=False] every other character goes out unchanged. *)
Definition escape_char (c : ascii) : string :=
  let n := N_of_ascii c in
  if (n =? 34)%N then String "\" (String dquote "")
  else if (n =? 92)%N then "\\"
  else if (n =? 10)%N then "\n"
  else if (n =? 13)%N then "\r"
  else if (n =? 9)%N then "\t"
  else if (n =? 8)%N then "\b"
  else if (n =? 12)%N then "\f"
  else if (n <? 32)%N
       then "\u00" ++ String (hex_digit (n / 16)) (String (hex_digit (n mod 16)) "")
  else String c "".

Fixpoint escape (s : string) : string :=
  match s with
  | EmptyString => ""
  | String c s' => escape_char c ++ escape s'
  end.

Definition json_string (s : string) : string := quoted (escape s).

(** [", ".join(items)]. *)
Fixpoint join (sep : string) (items : list string) : string :=
  match items with
  | [] => ""
  | [x] => x
  | x :: rest => x ++ sep ++ join sep rest
  end.

(** The text the encoder writes for a value, item separator [", "], key
    separator [": "]; [default=str] turns any other object into the JSON
    string of its [str].  [json_dumps], below, says when the encoder raises
    instead. *)
Fixpoint json_encode (v : value) : string :=
  match v with
  | VNone => "null"
  | VBool true => "true"
  | VBool false => "false"
  | VInt n => decimal n
  | VStr s => json_string s
  | VList l => "[" ++ join ", " (map json_encode l) ++ "]"
  | VDict d =>
      "{" ++ join ", "
               (map (fun kv => json_string (fst kv) ++ ": " ++ json_encode (snd kv)) d)
          ++ "}"
  | VObj text => json_string text
  end.

(** [sys.get_int_max_str_digits()]: converting an [int] of more decimal
    digits to text raises [ValueError]. *)
Definition max_str_digits : nat := 4300.

Definition int_digits (n : Z) : nat := String.length (decimal (Z.abs n)).

(** The value holds an [int] the encoder cannot write. *)
Fixpoint has_long_int (v : value) : bool :=
  match v with
  | VInt n => (max_str_digits <? int_digits n)%nat
  | VList l => existsb has_long_int l
  | VDict d => existsb (fun kv => has_long_int (snd kv)) d
  | _ => false
  end.

(* ================================================================= *)
(** ** Reading the text back *)

(** What a JSON reader can get back of a value: an object that went out
    through [default=str] comes back as the string of its [str]. *)
Fixpoint as_json (v : value) : value :=
  match v with
  | VObj text => VStr text
  | VList l => VList (map as_json l)
  | VDict d => VDict (map (fun kv => (fst kv, as_json (snd kv))) d)
  | _ => v
  end.

(** [s] without its prefix [p], when it has it. *)
Fixpoint strip_prefix (p s : string) : option string :=
  match p with
  | EmptyString => Some s
  | String a p' =>
      match s with
      | EmptyString => None
      | String b s' => if Ascii.eqb a b then strip_prefix p' s' else None
      end
  end.

Definition hex_value (c : ascii) : option N :=
  let n := N_of_ascii c in
  if ((48 <=? n) && (n <=? 57))%N then Some (n - 48)%N
  else if ((97 <=? n) && (n <=? 102))%N then Some (n - 87)%N
  else if ((65 <=? n) && (n <=? 70))%N then Some (n - 55)%N
  else None.

Definition prepend (c : ascii) (r : option (string * string)) : option (string * string) :=
  match r with
  | Some (s, rest) => Some (String c s, rest)
  | None => None
  end.

(** The characters of a JSON string up to its closing quote, the escapes
    undone, and what follows the quote.  A raw control character is not
    JSON; of the [\uXXXX] escapes only those of one byte are read. *)
Fixpoint read_string (s : string) : option (string * string) :=
  match s with
  | EmptyString => None
  | String c rest =>
      if Ascii.eqb c dquote then Some (EmptyString, rest)
      else if Ascii.eqb c "\" then
        match rest with
        | EmptyString => None
        | String e rest1 =>
            if Ascii.eqb e dquote then prepend dquote (read_string rest1)
            else if Ascii.eqb e "\" then prepend "\" (read_string rest1)
            else if Ascii.eqb e "/" then prepend "/" (read_string rest1)
            else if Ascii.eqb e "n" then prepend "010" (read_string rest1)
            else if Ascii.eqb e "r" then prepend "013" (read_string rest1)
            else if Ascii.eqb e "t" then prepend "009" (read_string rest1)
            else if Ascii.eqb e "b" then prepend "008" (read_string rest1)
            else if Ascii.eqb e "f" then prepend "012" (read_string rest1)
            else if Ascii.eqb e "u" then
              match rest1 with
              | String h1 (String h2 (String h3 (String h4 rest2))) =>
                  match hex_value h1, hex_value h2, hex_value h3, hex_value h4 with
                  | Some 0%N, Some 0%N, Some a, Some b =>
                      prepend (ascii_of_N (16 * a + b)) (read_string rest2)
                  | _, _, _, _ => None
                  end
              | _ => None
              end
            else None
        end
      else if (N_of_ascii c <? 32)%N then None
      else prepend c (read_string rest)
  end.

Definition digit_of (c : ascii) : option (Decimal.uint -> Decimal.uint) :=
  if Ascii.eqb c "0" then Some Decimal.D0
  else if Ascii.eqb c "1" then Some Decimal.D1
  else if Ascii.eqb c "2" then Some Decimal.D2
  else if Ascii.eqb c "3" then Some Decimal.D3
  else if Ascii.eqb c "4" then Some Decimal.D4
  else if Ascii.eqb c "5" then Some Decimal.D5
  else if Ascii.eqb c "6" then Some Decimal.D6
  else if Ascii.eqb c "7" then Some Decimal.D7
  else if Ascii.eqb c "8" then Some Decimal.D8
  else if Ascii.eqb c "9" then Some Decimal.D9
  else None.

(** The longest run of decimal digits at the head of [s], and the rest. *)
Fixpoint read_digits (s : string) : Decimal.uint * string :=
  match s with
  | EmptyString => (Decimal.Nil, s)
  | String c rest =>
      match digit_of c with
      | Some digit => let (d, r) := read_digits rest in (digit d, r)
      | None => (Decimal.Nil, s)
      end
  end.

(** A JSON integer: an optional minus sign and at least one digit. *)
Definition read_int (s : string) : option (Z * string) :=
  match strip_prefix "-" s with
  | Some s' =>
      match read_digits s' with
      | (Decimal.Nil, _) => None
      | (d, r) => Some (Z.of_int (Decimal.Neg d), r)
      end
  | None =>
      match read_digits s with
      | (Decimal.Nil, _) => None
      | (d, r) => Some (Z.of_int (Decimal.Pos d), r)
      end
  end.

(** A JSON value at the head of [s], and the rest of [s].  Arrays and
    objects are read with the separators the encoder writes, [", "] and
    [": "].  [fuel] bounds the values and separators still to read. *)
Fixpoint read_value (fuel : nat) (s : string) : option (value * string) :=
  match fuel with
  | O => None
  | S fuel' =>
      match strip_prefix "null" s with
      | Some r => Some (VNone, r)
      | None =>
      match strip_prefix "true" s with
      | Some r => Some (VBool true, r)
      | None =>
      match strip_prefix "false" s with
      | Some r => Some (VBool false, r)
      | None =>
      match strip_prefix (String dquote "") s with
      | Some r =>
          match read_string r with
          | Some (str, r') => Some (VStr str, r')
          | None => None
          end
      | None =>
      match strip_prefix "[" s with
      | Some r =>
          match strip_prefix "]" r with
          | Some r' => Some (VList [], r')
          | None =>
              match read_elements fuel' r with
              | Some (l, r') => Some (VList l, r')
              | None => None
              end
          end
      | None =>
      match strip_prefix "{" s with
      | Some r =>
          match strip_prefix "}" r with
          | Some r' => Some (VDict [], r')
          | None =>
              match read_members fuel' r with
              | Some (d, r') => Some (VDict d, r')
              | None => None
              end
          end
      | None =>
          match read_int s with
          | Some (n, r) => Some (VInt n, r)
          | None => None
          end
      end end end end end end
  end

with read_elements (fuel : nat) (s : string) : option (list value * string) :=
  match fuel with
  | O => None
  | S fuel' =>
      match read_value fuel' s with
      | Some (v, r) =>
          match strip_prefix "]" r with
          | Some r' => Some ([v], r')
          | None =>
              match strip_prefix ", " r with
              | Some r' =>
                  match read_elements fuel' r' with
                  | Some (l, r'') => Some (v :: l, r'')
                  | None => None
                  end
              | None => None
              end
          end
      | None => None
      end
  end

with read_members (fuel : nat) (s : string) : option (pydict value * string) :=
  match fuel with
  | O => None
  | S fuel' =>
      match strip_prefix (String dquote "") s with
      | Some r =>
          match read_string r with
          | Some (k, r1) =>
              match strip_prefix ": " r1 with
              | Some r2 =>
                  match read_value fuel' r2 with
                  | Some (v, r3) =>
                      match strip_prefix "}" r3 with
                      | Some r' => Some ([(k, v)], r')
                      | None =>
                          match strip_prefix ", " r3 with
                          | Some r4 =>
                              match read_members fuel' r4 with
                              | Some (d, r') => Some ((k, v) :: d, r')
                              | None => None
                              end
                          | None => None
                          end
                      end
                  | None => None
                  end
              | None => None
              end
          | None => None
          end
      | None => None
      end
  end.

(** [json.loads] on a text of the encoder: the value the whole text
    denotes. *)
Definition json_loads (text : string) : option value :=
  match read_value (S (String.length text)) text with
  | Some (v, EmptyString) => Some v
  | _ => None
  end.

(** What may follow an integer in a text: nothing, or a character that is
    not a digit. *)
Definition no_digit_head (s : string) : Prop :=
  match s with
  | EmptyString => True
  | String c _ => digit_of c = None
  end.

(** The characters an integer, resp. any value, can begin with. *)
Definition int_head (c : ascii) : bool :=
  Ascii.eqb c "-" || match digit_of c with Some _ => true | None => false end.

Definition value_head (c : ascii) : bool :=
  int_head c || Ascii.eqb c "n" || Ascii.eqb c "t" || Ascii.eqb c "f"
  || Ascii.eqb c dquote || Ascii.eqb c "[" || Ascii.eqb c "{".

(** Fuel that suffices to read the text of a value back. *)
Fixpoint json_fuel (v : value) : nat :=
  match v with
  | VList l => S (list_sum (map (fun x => S (json_fuel x)) l))
  | VDict d => S (list_sum (map (fun kv => S (json_fuel (snd kv))) d))
  | _ => O
  end.

(** What reading a value back gives, as a property of the value. *)
Definition reads_back (v : value) : Prop :=
  forall fuel rest,
    (json_fuel v < fuel)%nat -> no_digit_head rest ->
    read_value fuel (json_encode v ++ rest) = Some (as_json v, rest).

(* ================================================================= *)
(** ** Exceptions and outcomes *)

(** A raised Python exception: its class name, whether it is an instance of
    [Exception] (what [except Exception] catches; [SystemExit] and
    [KeyboardInterrupt] are not), and [str(e)]. *)
Record PyExc : Type := {
  exc_class : string;
  exc_is_Exception : bool;
  exc_str : string
}.

Inductive outcome (A : Type) : Type :=
| Returns (a : A)
| Raises (e : PyExc).
Arguments Returns {A} a.
Arguments Raises {A} e.

(** The errors that the interpreter, the [json] module and Flask raise in
    the modelled code. *)
Inductive interp_error : Type :=
| NoAttribute (ty attr : string)            (* AttributeError: obj.attr *)
| Unhashable (ty : string)                  (* TypeError: key in dict *)
| KeyMissing (key : string)                 (* KeyError: dict[key] *)
| NotAMapping (fname ty : string)           (* TypeError: ** applied to a non-mapping *)
| UnexpectedKeyword (fname kw : string)     (* TypeError: keyword names no parameter *)
| MissingArguments (fname : string) (names : list string) (* TypeError: required parameters unbound *)
| IntTooLong                                (* ValueError: int over the digit limit *)
| JsonLoadingFailed                         (* BadRequest: the body is not JSON *)
| NotJsonContentType.                       (* UnsupportedMediaType *)

Definition interp_class (k : interp_error) : string :=
  match k with
  | NoAttribute _ _ => "AttributeError"
  | KeyMissing _ => "KeyError"
  | Unhashable _ | NotAMapping _ _ | UnexpectedKeyword _ _
  | MissingArguments _ _ => "TypeError"
  | IntTooLong => "ValueError"
  | JsonLoadingFailed => "BadRequest"
  | NotJsonContentType => "UnsupportedMediaType"
  end.

(* ================================================================= *)
(** ** Functions called with keyword arguments *)

(** A [def f(a, b=default, ...)]: its name, its parameters with their
    defaults, and its body over the bound parameters.  This is the shape of
    every handler registered in the two server files.  A body is a function
    of its arguments: it returns a value or raises, and does not touch the
    server object. *)
Record Handler : Type := {
  h_name : string;
  h_params : list (string * option value);
  h_body : pydict value -> outcome value
}.

(** First keyword that names no parameter. *)
Fixpoint first_unexpected (params : list (string * option value))
         (kwargs : pydict value) : option string :=
  match kwargs with
  | [] => None
  | (k, _) :: rest =>
      if dict_has params k then first_unexpected params rest else Some k
  end.

(** Parameters without default that received no argument. *)
Fixpoint missing_params (params : list (string * option value))
         (kwargs : pydict value) : list string :=
  match params with
  | [] => []
  | (p, None) :: rest =>
      if dict_has kwargs p then missing_params rest kwargs
      else p :: missing_params rest kwargs
  | (_, Some _) :: rest => missing_params rest kwargs
  end.

(** The bound parameters, in declaration order. *)
Definition bound_params (params : list (string * option value))
           (kwargs : pydict value) : pydict value :=
  map (fun pd =>
         (fst pd,
          match dict_get kwargs (fst pd), snd pd with
          | Some v, _ => v
          | None, Some dflt => dflt
          | None, None => VNone
          end)) params.

(** Value of a bound parameter inside a body. *)
Definition arg (env : pydict value) (p : string) : value :=
  match dict_get env p with Some v => v | None => VNone end.

(* ================================================================= *)
(** ** The server object and its monad *)

(** An entry of [self.tools]: the dict built by the [tool] decorator. *)
Record ToolEntry : Type := {
  t_name : string;
  t_description : string;
  t_inputSchema : value;
  t_handler : Handler
}.

(** The attributes of an [MCPServer] that the protocol layer reads or
    writes ([self.app] is the Flask application, left out). *)
Record MCPServer : Type := {
  name : string;
  description : string;
  version : string;
  tools : pydict ToolEntry
}.

(** [MCPServer.__init__]: an empty registry. *)
Definition MCPServer_init (name description version : string) : MCPServer :=
  {| name := name; description := description; version := version; tools := [] |}.

(** What a Flask view returns: the document handed to [jsonify] and the
    HTTP status (200 unless the view says otherwise). *)
Record Response : Type := {
  body : value;
  status : Z
}.

Definition jsonify (doc : value) : Response := {| body := doc; status := 200 |}.
Definition with_status (r : Response) (code : Z) : Response :=
  {| body := body r; status := code |}.

(** A method of the server: it may read and replace [self], and it returns
    or raises. *)
Definition M (A : Type) : Type := MCPServer -> outcome A * MCPServer.

Definition ret {A} (a : A) : M A := fun self => (Returns a, self).

Definition bind {A B} (m : M A) (k : A -> M B) : M B :=
  fun self =>
    match m self with
    | (Returns a, self') => k a self'
    | (Raises e, self') => (Raises e, self')
    end.

Definition lift {A} (o : outcome A) : M A := fun self => (o, self).
Definition get_self : M MCPServer := fun self => (Returns self, self).
Definition put_tools (ts : pydict ToolEntry) : M unit :=
  fun self =>
    (Returns tt,
     {| name := name self; description := description self;
        version := version self; tools := ts |}).

(** [try: body / except Exception as e: handler e].  An exception that is
    not an instance of [Exception] passes through. *)
Definition try_except_Exception {A} (body : M A) (handler : PyExc -> M A) : M A :=
  fun self =>
    match body self with
    | (Returns a, self') => (Returns a, self')
    | (Raises e, self') =>
        if exc_is_Exception e then handler e self' else (Raises e, self')
    end.

Declare Scope py_scope.
Delimit Scope py_scope with py.
Notation "x <- m ;; k" := (bind m (fun x => k))
  (at level 61, m at next level, right associativity) : py_scope.
Notation "m ;;; k" := (bind m (fun _ => k))
  (at level 61, right associativity) : py_scope.
Open Scope py_scope.

(* ================================================================= *)
(** ** Registration: [MCPServer.tool] *)

(** [parameters.get(key, default)] on the [dict] passed to the decorator. *)
Definition dict_get_default {A} (d : pydict A) (k : string) (default : A) : A :=
  match dict_get d k with Some v => v | None => default end.

(** The [inputSchema] the decorator builds from [parameters]. *)
Definition input_schema (parameters : pydict value) : value :=
  VDict [("type", VStr "object");
         ("properties", dict_get_default parameters "properties" (VDict []));
         ("required", dict_get_default parameters "required" (VList []))].

(** [@self.tool(name, description, parameters)] applied to [func]: the
    entry is written into [self.tools] without any check, and the wrapper,
    which calls [func] with the arguments it gets, is returned. *)
Definition tool (name description : string) (parameters : pydict value)
           (func : Handler) : M Handler :=
  self <- get_self ;;
  put_tools (dict_set (tools self) name
               {| t_name := name;
                  t_description := description;
                  t_inputSchema := input_schema parameters;
                  t_handler := func |}) ;;;
  ret func.

(* ================================================================= *)
(** ** The dispatcher: [MCPServer._handle_mcp_request] *)

Section Interpreter.

(** Two pieces of CPython are kept abstract: the wording of the messages of
    the interpreter's own exceptions, and [repr] of a list or dict. *)
Variable interp_text : interp_error -> string.
Variable py_repr_container : value -> string.

Definition interp_exc (k : interp_error) : PyExc :=
  {| exc_class := interp_class k; exc_is_Exception := true;
     exc_str := interp_text k |}.

(** [str(v)], as an f-string field formats it. *)
Definition py_str (v : value) : string :=
  match v with
  | VNone => "None"
  | VBool true => "True"
  | VBool false => "False"
  | VInt n => decimal n
  | VStr s => s
  | VList _ | VDict _ => py_repr_container v
  | VObj text => text
  end.

(** [obj.get(key, default)]: only a dict has [get]. *)
Definition py_get (obj : value) (key : string) (default : value) : outcome value :=
  match obj with
  | VDict d => Returns (dict_get_default d key default)
  | _ => Raises (interp_exc (NoAttribute (type_name obj) "get"))
  end.

(** [key not in self.tools]: a list or a dict cannot be hashed; any other
    value is looked up, and only a [str] can equal a key. *)
Definition py_not_in {A} (key : value) (d : pydict A) : outcome bool :=
  match key with
  | VList _ | VDict _ => Raises (interp_exc (Unhashable (type_name key)))
  | VStr s => Returns (negb (dict_has d s))
  | _ => Returns true
  end.

(** [self.tools[key]]. *)
Definition py_getitem {A} (d : pydict A) (key : value) : outcome A :=
  match key with
  | VList _ | VDict _ => Raises (interp_exc (Unhashable (type_name key)))
  | VStr s =>
      match dict_get d s with
      | Some a => Returns a
      | None => Raises (interp_exc (KeyMissing s))
      end
  | _ => Raises (interp_exc (KeyMissing (py_str key)))
  end.

(** Binding of [f] called as [f( **kwargs)]: a keyword that names no parameter is
    rejected first, then the required parameters left unbound. *)
Definition bind_kwargs (fname : string) (params : list (string * option value))
           (kwargs : pydict value) : outcome (pydict value) :=
  match first_unexpected params kwargs with
  | Some k => Raises (interp_exc (UnexpectedKeyword fname k))
  | None =>
      match missing_params params kwargs with
      | [] => Returns (bound_params params kwargs)
      | ms => Raises (interp_exc (MissingArguments fname ms))
      end
  end.

(** The call [h( **arguments)]. *)
Definition call_kwargs (h : Handler) (arguments : value) : outcome value :=
  match arguments with
  | VDict kwargs =>
      match bind_kwargs (h_name h) (h_params h) kwargs with
      | Returns env => h_body h env
      | Raises e => Raises e
      end
  | _ => Raises (interp_exc (NotAMapping (h_name h) (type_name arguments)))
  end.

(** [json.dumps(result, ensure_ascii=False, default=str)]: the text of the
    value, or [ValueError] when the value holds an [int] over the digit
    limit.  (Values with keys that are not [str], values that contain
    themselves and objects whose [__str__] raises are outside [value].) *)
Definition json_dumps (v : value) : outcome string :=
  if has_long_int v then Raises (interp_exc IntTooLong)
  else Returns (json_encode v).

(** The Flask request, as far as [get_json] looks at it: whether the
    content type is JSON, and what [json.loads] makes of the body, [None]
    when the body is not JSON. *)
Record Request : Type := {
  is_json : bool;
  json_body : option value
}.

(** A request with JSON content type whose body decodes to [data]. *)
Definition decoded (data : value) : Request :=
  {| is_json := true; json_body := Some data |}.

(** [request.get_json()].  Flask is imported, it is not part of the
    repository: this follows the documented behaviour of
    [Request.get_json] called as here, without [force] and without
    [silent] (Flask 2.1 and later): a content type that is not JSON raises
    [UnsupportedMediaType], a body that is not JSON raises [BadRequest]. *)
Definition get_json (request : Request) : outcome value :=
  if is_json request then
    match json_body request with
    | Some data => Returns data
    | None => Raises (interp_exc JsonLoadingFailed)
    end
  else Raises (interp_exc NotJsonContentType).

(** The entry as [tools/list] shows it: the handler is left out. *)
Definition tool_listing (t : ToolEntry) : value :=
  VDict [("name", VStr (t_name t));
         ("description", VStr (t_description t));
         ("inputSchema", t_inputSchema t)].

(** The view behind [POST /mcp], on the request Flask hands to it. *)
Definition _handle_mcp_request (request : Request) : M Response :=
  data <- lift (get_json request) ;;
  if negb (truthy data) then
    ret (with_status
           (jsonify (VDict [("jsonrpc", VStr "2.0"); ("id", VNone);
                            ("error", VDict [("code", VInt (-32700));
                                             ("message", VStr "Parse error")])]))
           400)
  else
    request_id <- lift (py_get data "id" VNone) ;;
    method <- lift (py_get data "method" (VStr "")) ;;
    params <- lift (py_get data "params" (VDict [])) ;;
    self <- get_self ;;
    if py_eq_str method "initialize" then
      ret (jsonify (VDict [
        ("jsonrpc", VStr "2.0");
        ("id", request_id);
        ("result", VDict [
           ("protocolVersion", VStr "2024-11-05");
           ("serverInfo", VDict [("name", VStr (name self));
                                 ("version", VStr (version self))]);
           ("capabilities", VDict [("tools", VDict [("listChanged", VBool false)])])])]))
    else if py_eq_str method "tools/list" then
      let tools_list := map tool_listing (dict_values (tools self)) in
      ret (jsonify (VDict [
        ("jsonrpc", VStr "2.0");
        ("id", request_id);
        ("result", VDict [("tools", VList tools_list)])]))
    else if py_eq_str method "tools/call" then
      tool_name <- lift (py_get params "name" VNone) ;;
      arguments <- lift (py_get params "arguments" (VDict [])) ;;
      absent <- lift (py_not_in tool_name (tools self)) ;;
      if absent then
        ret (jsonify (VDict [
          ("jsonrpc", VStr "2.0");
          ("id", request_id);
          ("error", VDict [("code", VInt (-32601));
                           ("message", VStr ("Tool not found: " ++ py_str tool_name))])]))
      else
        try_except_Exception
          (entry <- lift (py_getitem (tools self) tool_name) ;;
           result <- lift (call_kwargs (t_handler entry) arguments) ;;
           text <- lift (json_dumps result) ;;
           ret (jsonify (VDict [
             ("jsonrpc", VStr "2.0");
             ("id", request_id);
             ("result", VDict [
                ("content", VList [VDict [("type", VStr "text");
                                          ("text", VStr text)]])])])))
          (fun e =>
             ret (jsonify (VDict [
               ("jsonrpc", VStr "2.0");
               ("id", request_id);
               ("error", VDict [("code", VInt (-32603));
                                ("message", VStr (exc_str e))])])))
    else
      ret (jsonify (VDict [
        ("jsonrpc", VStr "2.0");
        ("id", request_id);
        ("error", VDict [("code", VInt (-32601));
                         ("message", VStr ("Method not found: " ++ py_str method))])])).

End Interpreter.

(* ================================================================= *)
(** ** The collaborator modules *)

(** The package [tools] is imported by both server files and is not part of
    them: its five entry points are parameters.  The keyword-called ones
    receive their keywords, the [execute] ones the dict they are given. *)
Record ToolModules : Type := {
  tool_health_advice_get_health_advice : pydict value -> outcome value;
  tool_exercises_search_exercises : pydict value -> outcome value;
  tool_pharmacy_locator_execute : value -> outcome value;
  tool_government_services_execute : value -> outcome value;
  tool_cv_create_cv : pydict value -> outcome value
}.

Definition newline : string := String "010" "".

(** A triple-quoted literal, line by line. *)
Definition text_block (ls : list string) : string := join newline ls.

(** A property of a parameter schema. *)
Definition property (ty descr : string) : value :=
  VDict [("type", VStr ty); ("description", VStr descr)].

(* ================================================================= *)
(** ** [server_v2.py]: the registered tools *)

Module ServerV2.
Section Tools.
Variable T : ToolModules.

Definition get_health_advice : Handler :=
  {| h_name := "get_health_advice";
     h_params := [("symptoms", None); ("age", Some (VInt 30)); ("sex", Some (VStr "male"))];
     h_body := fun env =>
       tool_health_advice_get_health_advice T
         [("symptoms", arg env "symptoms"); ("age", arg env "age"); ("sex", arg env "sex")] |}.

Definition search_exercises : Handler :=
  {| h_name := "search_exercises";
     h_params := [("muscle", Some VNone); ("type", Some VNone); ("difficulty", Some VNone);
                  ("name", Some VNone); ("max_results", Some (VInt 10))];
     h_body := fun env =>
       tool_exercises_search_exercises T
         [("muscle", arg env "muscle"); ("type", arg env "type");
          ("difficulty", arg env "difficulty"); ("name", arg env "name");
          ("max_results", arg env "max_results")] |}.

Definition find_pharmacy : Handler :=
  {| h_name := "find_pharmacy";
     h_params := [("city", Some (VStr "Ouagadougou")); ("emergency", Some (VBool false))];
     h_body := fun env =>
       tool_pharmacy_locator_execute T
         (VDict [("city", arg env "city"); ("emergency", arg env "emergency")]) |}.

Definition get_government_service_info : Handler :=
  {| h_name := "get_government_service_info";
     h_params := [("service_name", None)];
     h_body := fun env =>
       tool_government_services_execute T
         (VDict [("service_name", arg env "service_name")]) |}.

Definition create_cv : Handler :=
  {| h_name := "create_cv";
     h_params := [("call_id", None); ("email", None);
                  ("style", Some (VStr "moderne")); ("color", Some (VStr "bleu"))];
     h_body := fun env =>
       tool_cv_create_cv T
         [("call_id", arg env "call_id"); ("email", arg env "email");
          ("style", arg env "style"); ("color", arg env "color")] |}.

(** The module body: the server is created, then the five decorated
    definitions register their tools in source order. *)
Definition register_tools : M Handler :=
  tool "get_health_advice"
    (text_block [
       "Analyse des symptômes et conseils santé, remèdes et recommandations.";
       "";
       "SYMPTÔMES SUPPORTÉS:";
       "- Maux de tête, fièvre, toux";
       "- Ballonnement, douleur abdominale";
       "- Fatigue, insomnie";
       "- Douleurs musculaires";
       "";
       "⚠️ AVERTISSEMENT: Conseils généraux uniquement. Consulter un médecin pour tout problème sérieux."])
    [("properties", VDict [
        ("symptoms", property "string" "Description des symptômes ressentis");
        ("age", property "integer" "Âge de la personne (pour conseils adaptés)");
        ("sex", property "string" "Sexe ('male' ou 'female')")]);
     ("required", VList [VStr "symptoms"])]
    get_health_advice ;;;
  tool "search_exercises"
    (text_block [
       "Recherche d'exercices de fitness avec filtres.";
       "";
       "MUSCLES: biceps, triceps, chest, back, legs, abdominals, calves, glutes";
       "TYPES: cardio, strength, stretching, plyometrics";
       "NIVEAUX: beginner, intermediate, expert";
       "";
       "EXEMPLES: muscle=" ++ quoted "biceps" ++ ", difficulty=" ++ quoted "beginner" ++ " "])
    [("properties", VDict [
        ("muscle", property "string" "Muscle ciblé (biceps, chest, legs, etc.)");
        ("type", property "string" "Type d'exercice (cardio, strength, stretching)");
        ("difficulty", property "string" "Niveau (beginner, intermediate, expert)");
        ("name", property "string" "Nom d'exercice (recherche partielle)");
        ("max_results", property "integer" "Nombre maximum de résultats (1-30)")]);
     ("required", VList [])]
    search_exercises ;;;
  tool "find_pharmacy"
    (text_block [
       "Trouve les pharmacies de garde (24h/24) et numéros d'urgence au Burkina Faso.";
       "";
       "VILLES SUPPORTÉES: Ouagadougou, Bobo-Dioulasso, Koudougou, Ouahigouya, Banfora";
       "";
       "NUMÉROS D'URGENCE: Police: 17, Pompiers: 18, SAMU: 112"])
    [("properties", VDict [
        ("city", property "string" "Ville du Burkina (défaut: Ouagadougou)");
        ("emergency", property "boolean" "Si true, inclut aussi les numéros d'urgence")]);
     ("required", VList [])]
    find_pharmacy ;;;
  tool "get_government_service_info"
    (text_block [
       "Informations sur les démarches administratives au Burkina Faso.";
       "";
       "SERVICES DISPONIBLES:";
       "- Passeport";
       "- Carte d'identité nationale (CNIB)";
       "- Permis de conduire";
       "- Acte de naissance";
       "- Certificat de nationalité";
       "- Casier judiciaire";
       "";
       "Retourne documents requis, procédure, coûts et délais."])
    [("properties", VDict [
        ("service_name", property "string" "Nom du service (ex: 'Passeport', 'CNIB', 'Permis')")]);
     ("required", VList [VStr "service_name"])]
    get_government_service_info ;;;
  tool "create_cv"
    (text_block [
       "Génère un CV professionnel Word à partir de la conversation Voice Live.";
       "";
       "⚠️ IMPORTANT: Cet outil nécessite que les informations aient été collectées pendant la conversation:";
       "- Nom complet, Email et téléphone";
       "- Expériences professionnelles";
       "- Formations et Compétences";
       "";
       "Le CV est généré depuis l'historique de conversation et envoyé par email."])
    [("properties", VDict [
        ("call_id", property "string" "ID de l'appel Voice Live en cours (fourni automatiquement)");
        ("email", property "string" "Adresse email pour envoyer le CV");
        ("style", property "string" "Style visuel (classique, moderne, minimaliste)");
        ("color", property "string" "Couleur principale (bleu, vert, gris, rouge)")]);
     ("required", VList [VStr "call_id"; VStr "email"])]
    create_cv.

Definition server : MCPServer :=
  snd (register_tools
         (MCPServer_init "services-agent"
            "Agent de services - Santé, exercices, pharmacies, démarches administratives et CV"
            "2.0.0")).

End Tools.
End ServerV2.

(* ================================================================= *)
(** ** [str.strip] and [len] *)

(** The code points of a [str], decoded from its UTF-8 encoding. *)
Fixpoint code_points (s : string) : list N :=
  match s with
  | EmptyString => []
  | String c0 s1 =>
      let b0 := N_of_ascii c0 in
      if (b0 <? 192)%N then b0 :: code_points s1
      else
        match s1 with
        | EmptyString => [b0]
        | String c1 s2 =>
            let b1 := N_of_ascii c1 in
            if (b0 <? 224)%N
            then ((b0 - 192) * 64 + (b1 - 128))%N :: code_points s2
            else
              match s2 with
              | EmptyString => [b0; b1]
              | String c2 s3 =>
                  let b2 := N_of_ascii c2 in
                  if (b0 <? 240)%N
                  then ((b0 - 224) * 4096 + (b1 - 128) * 64 + (b2 - 128))%N
                         :: code_points s3
                  else
                    match s3 with
                    | EmptyString => [b0; b1; b2]
                    | String c3 s4 =>
                        let b3 := N_of_ascii c3 in
                        ((b0 - 240) * 262144 + (b1 - 128) * 4096
                         + (b2 - 128) * 64 + (b3 - 128))%N :: code_points s4
                    end
              end
        end
  end.

(** [str.isspace] on one code point. *)
Definition isspace (c : N) : bool :=
  ((9 <=? c) && (c <=? 13) || (28 <=? c) && (c <=? 32)
   || (c =? 133) || (c =? 160) || (c =? 5760)
   || (8192 <=? c) && (c <=? 8202)
   || (c =? 8232) || (c =? 8233) || (c =? 8239) || (c =? 8287)
   || (c =? 12288))%N.

Fixpoint lstrip (l : list N) : list N :=
  match l with
  | [] => []
  | c :: rest => if isspace c then lstrip rest else l
  end.

(** The code points of [s.strip()]. *)
Definition strip (s : string) : list N :=
  rev (lstrip (rev (lstrip (code_points s)))).

(* ================================================================= *)
(** ** [server.py]: the tools registered through FastMCP *)

Module ServerV1.
Section Tools.
Variable interp_text : interp_error -> string.
Variable T : ToolModules.

(** [v.strip()]: only a [str] has [strip] among the values of the model. *)
Definition py_strip (v : value) : outcome (list N) :=
  match v with
  | VStr s => Returns (strip s)
  | _ => Raises (interp_exc interp_text (NoAttribute (type_name v) "strip"))
  end.

(** [not v or len(v.strip()) < n], with [or] evaluated left to right. *)
Definition blank_or_shorter (v : value) (n : nat) : outcome bool :=
  if negb (truthy v) then Returns true
  else
    match py_strip v with
    | Returns cs => Returns (List.length cs <? n)%nat
    | Raises e => Raises e
    end.

Definition get_health_advice : Handler :=
  {| h_name := "get_health_advice";
     h_params := [("symptoms", None); ("age", Some (VInt 30)); ("sex", Some (VStr "male"))];
     h_body := fun env =>
       match blank_or_shorter (arg env "symptoms") 3 with
       | Raises e => Raises e
       | Returns true =>
           Returns (VDict [
             ("status", VStr "error");
             ("message", VStr "Veuillez décrire vos symptômes (minimum 3 caractères). Exemple: 'mal de tête', 'fièvre'")])
       | Returns false =>
           tool_health_advice_get_health_advice T
             [("symptoms", arg env "symptoms"); ("age", arg env "age");
              ("sex", arg env "sex")]
       end |}.

Definition search_exercises : Handler :=
  {| h_name := "search_exercises";
     h_params := [("muscle", Some VNone); ("type", Some VNone); ("difficulty", Some VNone);
                  ("name", Some VNone); ("max_results", Some (VInt 10))];
     h_body := fun env =>
       tool_exercises_search_exercises T
         [("muscle", arg env "muscle"); ("type", arg env "type");
          ("difficulty", arg env "difficulty"); ("name", arg env "name");
          ("max_results", arg env "max_results")] |}.

Definition find_pharmacy : Handler :=
  {| h_name := "find_pharmacy";
     h_params := [("city", Some (VStr "Ouagadougou")); ("emergency", Some (VBool false))];
     h_body := fun env =>
       tool_pharmacy_locator_execute T
         (VDict [("city", arg env "city"); ("emergency", arg env "emergency")]) |}.

Definition get_government_service_info : Handler :=
  {| h_name := "get_government_service_info";
     h_params := [("service_name", None)];
     h_body := fun env =>
       match blank_or_shorter (arg env "service_name") 2 with
       | Raises e => Raises e
       | Returns true =>
           Returns (VDict [
             ("status", VStr "error");
             ("message", VStr "Veuillez préciser le service recherché. Services disponibles: Passeport, CNIB, Permis de conduire, Acte de naissance, Certificat de nationalité, Casier judiciaire, Carte grise, Visa")])
       | Returns false =>
           tool_government_services_execute T
             (VDict [("service_name", arg env "service_name")])
       end |}.

Definition create_cv : Handler :=
  {| h_name := "create_cv";
     h_params := [("call_id", None); ("email", None);
                  ("style", Some (VStr "moderne")); ("color", Some (VStr "bleu"))];
     h_body := fun env =>
       tool_cv_create_cv T
         [("call_id", arg env "call_id"); ("email", arg env "email");
          ("style", arg env "style"); ("color", arg env "color")] |}.

(** [@mcp.tool()] without arguments registers the function under its own
    name; the five decorated definitions, in source order. *)
Definition registered : pydict Handler :=
  [("get_health_advice", get_health_advice);
   ("search_exercises", search_exercises);
   ("find_pharmacy", find_pharmacy);
   ("get_government_service_info", get_government_service_info);
   ("create_cv", create_cv)].

End Tools.
End ServerV1.

(* ================================================================= *)
(** ** Vocabulary of the statements *)

(** The two shapes of a response document. *)
Definition result_envelope (id result : value) : value :=
  VDict [("jsonrpc", VStr "2.0"); ("id", id); ("result", result)].

Definition error_envelope (id : value) (code : Z) (message : string) : value :=
  VDict [("jsonrpc", VStr "2.0"); ("id", id);
         ("error", VDict [("code", VInt code); ("message", VStr message)])].

(** The text content a tool call answers with. *)
Definition text_content (text : string) : value :=
  VDict [("content", VList [VDict [("type", VStr "text"); ("text", VStr text)]])].

(** The three fields the dispatcher reads from a decoded object. *)
Definition request_id (d : pydict value) : value := dict_get_default d "id" VNone.
Definition request_method (d : pydict value) : value :=
  dict_get_default d "method" (VStr "").
Definition request_params (d : pydict value) : value :=
  dict_get_default d "params" (VDict []).

(** The two fields the [tools/call] branch reads from [params]. *)
Definition tool_name_of (p : pydict value) : value := dict_get_default p "name" VNone.
Definition arguments_of (p : pydict value) : value :=
  dict_get_default p "arguments" (VDict []).

(** The answers of the four branches that do not call a handler. *)
Definition parse_error_response : Response :=
  with_status (jsonify (error_envelope VNone (-32700) "Parse error")) 400.

Definition initialize_result (self : MCPServer) : value :=
  VDict [("protocolVersion", VStr "2024-11-05");
         ("serverInfo", VDict [("name", VStr (name self));
                               ("version", VStr (version self))]);
         ("capabilities", VDict [("tools", VDict [("listChanged", VBool false)])])].

Definition tools_list_result (self : MCPServer) : value :=
  VDict [("tools", VList (map tool_listing (dict_values (tools self))))].

(** What the [try] statement makes of the handler's outcome. *)
Definition caught (id : value) (e : PyExc) : outcome Response :=
  if exc_is_Exception e
  then Returns (jsonify (error_envelope id (-32603) (exc_str e)))
  else Raises e.

Definition call_response (interp_text : interp_error -> string)
           (id : value) (o : outcome value) : outcome Response :=
  match o with
  | Returns result =>
      match json_dumps interp_text result with
      | Returns text => Returns (jsonify (result_envelope id (text_content text)))
      | Raises e => caught id e
      end
  | Raises e => caught id e
  end.

(** [sub] occurs in [s]. *)
Definition contains (s sub : string) : Prop :=
  exists pre post, s = pre ++ sub ++ post.

(** The document has exactly one of the fields [result] and [error], and
    its [id] field is [id]. *)
Definition one_envelope (doc id : value) : Prop :=
  exists fields,
    doc = VDict fields /\
    dict_get fields "id" = Some id /\
    xorb (dict_has fields "result") (dict_has fields "error") = true.

(** Requests are served one after the other on the same server object. *)
Fixpoint serve {R : Type} (dispatch : R -> M Response) (requests : list R)
         (self : MCPServer) : list (outcome Response) * MCPServer :=
  match requests with
  | [] => ([], self)
  | data :: rest =>
      let (r, self') := dispatch data self in
      let (rs, self'') := serve dispatch rest self' in
      (r :: rs, self'')
  end.

(** A call of the registration decorator. *)
Record Registration : Type := {
  r_name : string;
  r_description : string;
  r_parameters : pydict value;
  r_func : Handler
}.

Definition register (r : Registration) (self : MCPServer) : MCPServer :=
  snd (tool (r_name r) (r_description r) (r_parameters r) (r_func r) self).

Definition register_all (rs : list Registration) (self : MCPServer) : MCPServer :=
  fold_left (fun s r => register r s) rs self.

(** The decoded object of a [tools/call] request. *)
Definition call_request (id : value) (tname : string) (arguments : value) : value :=
  VDict [("jsonrpc", VStr "2.0"); ("id", id); ("method", VStr "tools/call");
         ("params", VDict [("name", VStr tname); ("arguments", arguments)])].

(** The value read as tool name is no key of the registry: a [str] that
    is not registered, or [None] (no name given), a [bool] or an [int].
    A list or a dict cannot be looked up at all. *)
Definition unregistered (self : MCPServer) (tname : value) : Prop :=
  match tname with
  | VStr s => dict_has (tools self) s = false
  | VList _ | VDict _ => False
  | _ => True
  end.

(** The method read from the request is none of the three supported ones. *)
Definition unsupported (method : value) : Prop :=
  method <> VStr "initialize" /\ method <> VStr "tools/list" /\
  method <> VStr "tools/call".

(** The handler was given a keyword it has no parameter for, or was left
    without a value for a parameter that has no default. *)
Definition does_not_bind (h : Handler) (kwargs : pydict value) : Prop :=
  (exists k, In k (dict_keys kwargs) /\ dict_has (h_params h) k = false) \/
  (exists q, In (q, None) (h_params h) /\ dict_has kwargs q = false).

(** The argument [field], when given, is a [str] that keeps at least [n]
    characters once stripped. *)
Definition long_enough (field : string) (n : nat) (arguments : value) : Prop :=
  forall kwargs v,
    arguments = VDict kwargs ->
    dict_get kwargs field = Some v ->
    exists s, v = VStr s /\ (n <= List.length (strip s))%nat.

(** Two handlers that answer every call alike. *)
Definition same_results (interp_text : interp_error -> string)
           (h1 h2 : Handler) : Prop :=
  forall arguments,
    call_kwargs interp_text h1 arguments = call_kwargs interp_text h2 arguments.

(** The two server files register the same names, and under each name
    handlers that answer every call alike, whatever the collaborators. *)
Definition handlers_interchangeable : Prop :=
  forall interp_text T,
    dict_keys (ServerV1.registered interp_text T)
    = dict_keys (tools (ServerV2.server T)) /\
    forall tname h1 entry,
      dict_get (ServerV1.registered interp_text T) tname = Some h1 ->
      dict_get (tools (ServerV2.server T)) tname = Some entry ->
      same_results interp_text h1 (t_handler entry).

(** What the two validating handlers of [server.py] ask of their
    arguments before they call the collaborator. *)
Definition validated (tname : string) (arguments : value) : Prop :=
  (tname = "get_health_advice" -> long_enough "symptoms" 3 arguments) /\
  (tname = "get_government_service_info" -> long_enough "service_name" 2 arguments).

(** A decoded object the dispatcher can work on: when it is a [tools/call],
    [params] is an object, the name can be hashed, and the handler it names,
    if any, raises nothing but instances of [Exception]. *)
Definition well_shaped (interp_text : interp_error -> string) (self : MCPServer)
           (d : pydict value) : Prop :=
  request_method d = VStr "tools/call" ->
  exists p,
    request_params d = VDict p /\
    match tool_name_of p with
    | VList _ | VDict _ => False
    | VStr tname =>
        forall entry e,
          dict_get (tools self) tname = Some entry ->
          call_kwargs interp_text (t_handler entry) (arguments_of p) = Raises e ->
          exc_is_Exception e = true
    | _ => True
    end.

(** Every value a handler returns comes back as the text of a result
    envelope. *)
Definition every_result_is_serialized : Prop :=
  forall interp_text py_repr_container d p tname entry result self,
    request_method d = VStr "tools/call" ->
    request_params d = VDict p ->
    tool_name_of p = VStr tname ->
    dict_get (tools self) tname = Some entry ->
    call_kwargs interp_text (t_handler entry) (arguments_of p) = Returns result ->
    exists text,
      _handle_mcp_request interp_text py_repr_container (decoded (VDict d)) self
      = (Returns (jsonify (result_envelope (request_id d) (text_content text))), self).

(** Registration stores an entry only under a non-empty name. *)
Definition registration_checks_name : Prop :=
  forall self name description parameters func,
    dict_has (tools (snd (tool name description parameters func self))) name = true ->
    name <> "".

(* ================================================================= *)
(** ** Scenarios *)

Module Scenario.

(** One wording of the interpreter's messages and one rendering of
    containers, to run the examples with. *)
Definition wording (k : interp_error) : string :=
  match k with
  | NoAttribute ty attr => "'" ++ ty ++ "' object has no attribute '" ++ attr ++ "'"
  | Unhashable ty => "unhashable type: '" ++ ty ++ "'"
  | KeyMissing key => "'" ++ key ++ "'"
  | NotAMapping fname ty => fname ++ "() argument after ** must be a mapping, not " ++ ty
  | UnexpectedKeyword fname kw =>
      fname ++ "() got an unexpected keyword argument '" ++ kw ++ "'"
  | MissingArguments fname names =>
      fname ++ "() missing required positional arguments: " ++ join ", " names
  | IntTooLong => "Exceeds the limit (4300 digits) for integer string conversion; use sys.set_int_max_str_digits() to increase the limit"
  | JsonLoadingFailed => "400 Bad Request"
  | NotJsonContentType => "415 Unsupported Media Type"
  end.

Definition rendering (v : value) : string := json_encode v.

(** Collaborators that answer with what they were given. *)
Definition collaborators : ToolModules :=
  {| tool_health_advice_get_health_advice :=
       fun kw => Returns (VDict [("status", VStr "success"); ("input", VDict kw)]);
     tool_exercises_search_exercises :=
       fun kw => Returns (VDict [("status", VStr "success"); ("input", VDict kw)]);
     tool_pharmacy_locator_execute :=
       fun v => Returns (VDict [("status", VStr "success"); ("input", v)]);
     tool_government_services_execute :=
       fun v => Returns (VDict [("status", VStr "success"); ("input", v)]);
     tool_cv_create_cv :=
       fun kw => Returns (VDict [("status", VStr "success"); ("input", VDict kw)]) |}.

Definition server : MCPServer := ServerV2.server collaborators.

(** [def echo(text): return text], registered with a schema that requires
    [text: string]. *)
Definition echo : Handler :=
  {| h_name := "echo";
     h_params := [("text", None)];
     h_body := fun env => Returns (arg env "text") |}.

Definition echo_parameters : pydict value :=
  [("properties", VDict [("text", VDict [("type", VStr "string")])]);
   ("required", VList [VStr "text"])].

Definition echo_registration : Registration :=
  {| r_name := "echo"; r_description := "Echo"; r_parameters := echo_parameters;
     r_func := echo |}.

(** [def boom(): raise ValueError("boom")]. *)
Definition boom : Handler :=
  {| h_name := "boom";
     h_params := [];
     h_body := fun _ =>
       Raises {| exc_class := "ValueError"; exc_is_Exception := true;
                 exc_str := "boom" |} |}.

Definition boom_registration : Registration :=
  {| r_name := "boom"; r_description := "Boom"; r_parameters := [];
     r_func := boom |}.

Definition test_server : MCPServer :=
  register_all [echo_registration; boom_registration]
    (MCPServer_init "test" "Test server" "2.0.0").

End Scenario.

(* ================================================================= *)
(** ** The diagnostic routes of [_setup_routes] *)

(** [len(x)] as a Python [int]. *)
Definition py_len {A} (l : list A) : value := VInt (Z.of_nat (List.length l)).

(** [GET /health]. *)
Definition health : M Response :=
  self <- get_self ;;
  ret (jsonify (VDict [
    ("status", VStr "ok");
    ("server", VStr (name self));
    ("version", VStr (version self));
    ("tools_count", py_len (tools self))])).

(** [GET /tools]. *)
Definition list_tools : M Response :=
  self <- get_self ;;
  let tools_list :=
    map (fun t => VDict [("name", VStr (t_name t));
                         ("description", VStr (t_description t))])
        (dict_values (tools self)) in
  ret (jsonify (VDict [("tools", VList tools_list); ("count", py_len tools_list)])).

(** [GET /]. *)
Definition index : M Response :=
  self <- get_self ;;
  ret (jsonify (VDict [
    ("name", VStr (name self));
    ("description", VStr (description self));
    ("version", VStr (version self));
    ("endpoints", VDict [("mcp", VStr "/mcp (POST)");
                         ("health", VStr "/health");
                         ("tools", VStr "/tools")]);
    ("tools_count", py_len (tools self))])).

(* ================================================================= *)
(** ** Vocabulary of the further properties *)

(** The entry a registration writes. *)
Definition entry_of (r : Registration) : ToolEntry :=
  {| t_name := r_name r; t_description := r_description r;
     t_inputSchema := input_schema (r_parameters r); t_handler := r_func r |}.

(** The registry as a [dict] keeps it: no key twice, and every entry
    carries its key as its name. *)
Definition registry_ok (self : MCPServer) : Prop :=
  NoDup (dict_keys (tools self)) /\
  forall k entry, In (k, entry) (tools self) -> t_name entry = k.

(** The keyword arguments fit the parameters: every keyword names a
    parameter, and every parameter without default is given. *)
Definition binds (params : list (string * option value)) (kwargs : pydict value) : Prop :=
  (forall k, In k (dict_keys kwargs) -> dict_has params k = true) /\
  (forall q, In (q, None) params -> dict_has kwargs q = true).

(** What a bound parameter holds: the argument given for it, else its
    default. *)
Definition bound_value (kwargs : pydict value) (p : string) (dflt : option value) : value :=
  match dict_get kwargs p with
  | Some v => v
  | None => match dflt with Some d => d | None => VNone end
  end.

(** The field [key] of a JSON object, [None] on anything else. *)
Definition field (key : string) (doc : value) : option value :=
  match doc with
  | VDict d => dict_get d key
  | _ => None
  end.

(** The strings of a JSON array of strings. *)
Fixpoint strings_of (l : list value) : list string :=
  match l with
  | [] => []
  | VStr s :: rest => s :: strings_of rest
  | _ :: rest => strings_of rest
  end.

(** The arguments follow an advertised [inputSchema]: they use only the
    property names of the schema and give every property it requires. *)
Definition conforms (schema : value) (kwargs : pydict value) : Prop :=
  exists props required,
    field "properties" schema = Some (VDict props) /\
    field "required" schema = Some (VList required) /\
    (forall k, In k (dict_keys kwargs) -> In k (dict_keys props)) /\
    (forall q, In q (strings_of required) -> dict_has kwargs q = true).

(** The names of the parameters that have no default. *)
Definition required_params (params : list (string * option value)) : list string :=
  map fst (filter (fun pd => match snd pd with None => true | Some _ => false end) params).

(** The advertised schema of an entry matches the signature of its
    handler: the property names are the parameter names, in order, and the
    required list names the parameters without default, in order. *)
Definition schema_matches_signature (entry : ToolEntry) : bool :=
  match field "properties" (t_inputSchema entry),
        field "required" (t_inputSchema entry) with
  | Some (VDict props), Some (VList required) =>
      (if list_eq_dec string_dec (dict_keys props)
                      (map fst (h_params (t_handler entry)))
       then true else false)
      && (if list_eq_dec string_dec (strings_of required)
                         (required_params (h_params (t_handler entry)))
          then true else false)
  | _, _ => false
  end.

(** The entry point of [tools] behind each tool of [server_v2.py], applied
    to the bound parameters of the handler. *)
Definition collaborator_call (T : ToolModules) (tname : string)
           (env : pydict value) : outcome value :=
  if String.eqb tname "get_health_advice" then
    tool_health_advice_get_health_advice T env
  else if String.eqb tname "search_exercises" then
    tool_exercises_search_exercises T env
  else if String.eqb tname "find_pharmacy" then
    tool_pharmacy_locator_execute T (VDict env)
  else if String.eqb tname "get_government_service_info" then
    tool_government_services_execute T (VDict env)
  else
    tool_cv_create_cv T env.

(** The situations in which a decoded document makes the dispatcher raise
    instead of answering: a truthy document that is not an object; a
    [tools/call] whose [params] is not an object, or whose name is a list or
    a dict, or whose handler raises something that is not an [Exception]. *)
Definition document_escapes (interp_text : interp_error -> string) (self : MCPServer)
           (data : value) (e : PyExc) : Prop :=
  (truthy data = true /\ (forall d, data <> VDict d) /\
   e = interp_exc interp_text (NoAttribute (type_name data) "get"))
  \/
  exists d,
    data = VDict d /\ request_method d = VStr "tools/call" /\
    ((forall p, request_params d <> VDict p) /\
     e = interp_exc interp_text (NoAttribute (type_name (request_params d)) "get")
     \/
     exists p,
       request_params d = VDict p /\
       (((exists l, tool_name_of p = VList l) \/ (exists m, tool_name_of p = VDict m)) /\
        e = interp_exc interp_text (Unhashable (type_name (tool_name_of p)))
        \/
        exists tname entry,
          tool_name_of p = VStr tname /\
          dict_get (tools self) tname = Some entry /\
          call_kwargs interp_text (t_handler entry) (arguments_of p) = Raises e /\
          exc_is_Exception e = false)).

(** The situations in which the dispatcher raises instead of answering:
    [request.get_json()] raises, on a content type that is not JSON or on a
    body that does not decode; or the decoded document is one of the above. *)
Definition escapes (interp_text : interp_error -> string) (self : MCPServer)
           (request : Request) (e : PyExc) : Prop :=
  (is_json request = false /\ e = interp_exc interp_text NotJsonContentType)
  \/
  (is_json request = true /\ json_body request = None /\
   e = interp_exc interp_text JsonLoadingFailed)
  \/
  exists data,
    get_json interp_text request = Returns data /\
    document_escapes interp_text self data e.

(** [def googol(): return 10 ** 4300]: a handler that returns an [int] of
    4301 digits. *)
Definition googol : Handler :=
  {| h_name := "googol";
     h_params := [];
     h_body := fun _ => Returns (VInt (10 ^ 4300)) |}.

(** [def bye(): raise SystemExit("bye")]: a handler that raises outside
    the [Exception] hierarchy. *)
Definition bye : Handler :=
  {| h_name := "bye";
     h_params := [];
     h_body := fun _ =>
       Raises {| exc_class := "SystemExit"; exc_is_Exception := false;
                 exc_str := "bye" |} |}.

(* ================================================================= *)
(** ** Dictionaries *)

Lemma dict_get_set_same {A} (d : pydict A) k v :
  dict_get (dict_set d k v) k = Some v.
Proof.
  induction d as [|[k' v'] d IH]; simpl.
  - now rewrite String.eqb_refl.
  - destruct (String.eqb k' k) eqn:E; simpl; rewrite E; [reflexivity | exact IH].
Qed.

Lemma dict_get_set_other {A} (d : pydict A) k k' v :
  k <> k' -> dict_get (dict_set d k v) k' = dict_get d k'.
Proof.
  intros Hne. induction d as [|[k0 v0] d IH]; simpl.
  - destruct (String.eqb k k') eqn:E; [apply String.eqb_eq in E; contradiction | reflexivity].
  - destruct (String.eqb k0 k) eqn:E; simpl.
    + apply String.eqb_eq in E; subst k0.
      destruct (String.eqb k k') eqn:E'; [apply String.eqb_eq in E'; contradiction | reflexivity].
    + now rewrite IH.
Qed.

Lemma dict_get_In {A} (d : pydict A) k v :
  dict_get d k = Some v -> In v (dict_values d).
Proof.
  induction d as [|[k' v'] d IH]; simpl; [discriminate|].
  destruct (String.eqb k' k); intros H.
  - left. congruence.
  - right. auto.
Qed.

Lemma dict_has_get {A} (d : pydict A) k :
  dict_has d k = true <-> exists v, dict_get d k = Some v.
Proof.
  unfold dict_has. destruct (dict_get d k); split; intros H; eauto; try discriminate.
  destruct H; discriminate.
Qed.

Lemma truthy_dict (d : pydict value) : d <> [] -> truthy (VDict d) = true.
Proof. destruct d; [contradiction | reflexivity]. Qed.

Lemma method_present_nonempty (d : pydict value) (m : string) :
  m <> "" -> request_method d = VStr m -> d <> [].
Proof. intros Hm H ->. cbv in H. congruence. Qed.

Lemma contains_suffix (pre s : string) : contains (pre ++ s) s.
Proof.
  exists pre, "". f_equal.
  induction s; simpl; congruence.
Qed.

Lemma contains_refl (s : string) : contains s s.
Proof. exact (contains_suffix "" s). Qed.

(* ================================================================= *)
(** ** The dispatcher, branch by branch *)

Section Dispatch.
Variable interp_text : interp_error -> string.
Variable py_repr_container : value -> string.

Local Abbreviation handle := (_handle_mcp_request interp_text py_repr_container).
Local Abbreviation str := (py_str py_repr_container).
Local Abbreviation call := (call_kwargs interp_text).

Ltac enter_request :=
  unfold _handle_mcp_request;
  cbv beta iota delta [get_json decoded is_json json_body];
  unfold bind at 1; unfold lift at 1; cbv beta iota.

Ltac enter_dispatch d Hne :=
  enter_request;
  rewrite (truthy_dict d Hne);
  cbv beta iota delta [negb bind lift ret get_self py_get];
  fold (request_id d) (request_method d) (request_params d).

Lemma handle_falsy data self :
  truthy data = false -> handle (decoded data) self = (Returns parse_error_response, self).
Proof.
  intros H. enter_request. rewrite H. reflexivity.
Qed.

Lemma handle_not_object data self :
  truthy data = true ->
  (forall d, data <> VDict d) ->
  handle (decoded data) self
  = (Raises (interp_exc interp_text (NoAttribute (type_name data) "get")), self).
Proof.
  intros H Hd. enter_request. rewrite H.
  destruct data; try reflexivity. now elim (Hd d).
Qed.

Lemma handle_initialize d self :
  request_method d = VStr "initialize" ->
  handle (decoded (VDict d)) self
  = (Returns (jsonify (result_envelope (request_id d) (initialize_result self))), self).
Proof.
  intros Hm.
  assert (Hne : d <> []) by (eapply method_present_nonempty; [|exact Hm]; discriminate).
  enter_dispatch d Hne. rewrite Hm. reflexivity.
Qed.

Lemma handle_tools_list d self :
  request_method d = VStr "tools/list" ->
  handle (decoded (VDict d)) self
  = (Returns (jsonify (result_envelope (request_id d) (tools_list_result self))), self).
Proof.
  intros Hm.
  assert (Hne : d <> []) by (eapply method_present_nonempty; [|exact Hm]; discriminate).
  enter_dispatch d Hne. rewrite Hm. reflexivity.
Qed.

Lemma handle_unknown_method d self :
  d <> [] ->
  py_eq_str (request_method d) "initialize" = false ->
  py_eq_str (request_method d) "tools/list" = false ->
  py_eq_str (request_method d) "tools/call" = false ->
  handle (decoded (VDict d)) self
  = (Returns (jsonify (error_envelope (request_id d) (-32601)
                         ("Method not found: " ++ str (request_method d)))), self).
Proof.
  intros Hne H1 H2 H3. enter_dispatch d Hne. rewrite H1, H2, H3. reflexivity.
Qed.

Ltac enter_call d p Hm Hp :=
  let Hne := fresh "Hne" in
  assert (Hne : d <> []) by (eapply method_present_nonempty; [|exact Hm]; discriminate);
  enter_dispatch d Hne; rewrite Hm, Hp;
  cbv beta iota delta [py_eq_str String.eqb Ascii.eqb Bool.eqb];
  fold (tool_name_of p) (arguments_of p).

Lemma handle_call_params_not_object d self :
  request_method d = VStr "tools/call" ->
  (forall p, request_params d <> VDict p) ->
  handle (decoded (VDict d)) self
  = (Raises (interp_exc interp_text (NoAttribute (type_name (request_params d)) "get")),
     self).
Proof.
  intros Hm Hp.
  assert (Hne : d <> []) by (eapply method_present_nonempty; [|exact Hm]; discriminate).
  enter_dispatch d Hne. rewrite Hm.
  destruct (request_params d); try reflexivity. now elim (Hp d0).
Qed.

Lemma handle_call_name_unhashable d p self :
  request_method d = VStr "tools/call" ->
  request_params d = VDict p ->
  (exists l, tool_name_of p = VList l) \/ (exists m, tool_name_of p = VDict m) ->
  handle (decoded (VDict d)) self
  = (Raises (interp_exc interp_text (Unhashable (type_name (tool_name_of p)))), self).
Proof.
  intros Hm Hp Hn. enter_call d p Hm Hp.
  destruct Hn as [[l ->] | [m ->]]; reflexivity.
Qed.

Lemma handle_tool_not_found d p self :
  request_method d = VStr "tools/call" ->
  request_params d = VDict p ->
  py_not_in interp_text (tool_name_of p) (tools self) = Returns true ->
  handle (decoded (VDict d)) self
  = (Returns (jsonify (error_envelope (request_id d) (-32601)
                         ("Tool not found: " ++ str (tool_name_of p)))), self).
Proof.
  intros Hm Hp Hn. enter_call d p Hm Hp. rewrite Hn. reflexivity.
Qed.

Lemma handle_tool_call d p tname entry self :
  request_method d = VStr "tools/call" ->
  request_params d = VDict p ->
  tool_name_of p = VStr tname ->
  dict_get (tools self) tname = Some entry ->
  handle (decoded (VDict d)) self
  = (call_response interp_text (request_id d) (call (t_handler entry) (arguments_of p)), self).
Proof.
  intros Hm Hp Hn He. enter_call d p Hm Hp. rewrite Hn.
  unfold py_not_in, dict_has, try_except_Exception, py_getitem, bind, lift, ret.
  rewrite He. cbv beta iota delta [negb].
  destruct (call (t_handler entry) (arguments_of p)) as [v|e]; simpl.
  - unfold caught. destruct (json_dumps interp_text v) as [text|e]; simpl;
      [reflexivity | destruct (exc_is_Exception e); reflexivity].
  - unfold caught. destruct (exc_is_Exception e); reflexivity.
Qed.

End Dispatch.

(* ================================================================= *)
(** ** Binding of keyword arguments *)

Lemma first_unexpected_found params kwargs k :
  In k (dict_keys kwargs) -> dict_has params k = false ->
  exists k', first_unexpected params kwargs = Some k'.
Proof.
  induction kwargs as [|[k0 v0] kwargs IH]; simpl; [contradiction|].
  intros [-> | Hin] Hk.
  - rewrite Hk. eauto.
  - destruct (dict_has params k0); eauto.
Qed.

Lemma missing_params_found params kwargs q :
  In (q, None) params -> dict_has kwargs q = false ->
  missing_params params kwargs <> [].
Proof.
  induction params as [|[p0 [dflt|]] params IH]; simpl; [contradiction| |].
  - intros [Heq | Hin] Hq; [discriminate | auto].
  - intros [Heq | Hin] Hq.
    + injection Heq as ->. rewrite Hq. discriminate.
    + destruct (dict_has kwargs p0); [auto | discriminate].
Qed.

Lemma unbound_call_raises interp_text h kwargs :
  does_not_bind h kwargs ->
  exists k,
    interp_class k = "TypeError" /\
    call_kwargs interp_text h (VDict kwargs) = Raises (interp_exc interp_text k).
Proof.
  intros Hb. unfold call_kwargs, bind_kwargs.
  destruct (first_unexpected (h_params h) kwargs) as [k'|] eqn:Hu.
  - exists (UnexpectedKeyword (h_name h) k'). split; reflexivity.
  - destruct Hb as [(k & Hin & Hk) | (q & Hin & Hq)].
    + destruct (first_unexpected_found _ _ _ Hin Hk) as [k' Hk']. congruence.
    + pose proof (missing_params_found _ _ _ Hin Hq) as Hm.
      destruct (missing_params (h_params h) kwargs) as [|m ms] eqn:E; [congruence|].
      exists (MissingArguments (h_name h) (m :: ms)). split; reflexivity.
Qed.

Lemma unregistered_not_in interp_text self tname :
  unregistered self tname ->
  py_not_in interp_text tname (tools self) = Returns true.
Proof.
  destruct tname; simpl; intros H; try reflexivity; try contradiction.
  now rewrite H.
Qed.

Lemma unsupported_eq method :
  unsupported method ->
  py_eq_str method "initialize" = false /\
  py_eq_str method "tools/list" = false /\
  py_eq_str method "tools/call" = false.
Proof.
  intros (H1 & H2 & H3).
  destruct method; simpl; auto.
  repeat split; apply not_true_is_false; intros E; apply String.eqb_eq in E; subst;
    congruence.
Qed.

(* ================================================================= *)
(** ** The text of a value reads back *)

Lemma value_nested_ind (P : value -> Prop) :
  P VNone -> (forall b, P (VBool b)) -> (forall n, P (VInt n)) ->
  (forall s, P (VStr s)) ->
  (forall l, Forall P l -> P (VList l)) ->
  (forall d, Forall (fun kv => P (snd kv)) d -> P (VDict d)) ->
  (forall t, P (VObj t)) ->
  forall v, P v.
Proof.
  intros HN HB HI HS HL HD HO.
  refine (fix IH (v : value) : P v :=
            match v with
            | VNone => HN
            | VBool b => HB b
            | VInt n => HI n
            | VStr s => HS s
            | VList l =>
                HL l ((fix all (l : list value) : Forall P l :=
                         match l with
                         | [] => Forall_nil _
                         | x :: rest => Forall_cons x (IH x) (all rest)
                         end) l)
            | VDict d =>
                HD d ((fix all (d : list (string * value))
                         : Forall (fun kv => P (snd kv)) d :=
                         match d with
                         | [] => Forall_nil _
                         | (k, x) :: rest => Forall_cons (k, x) (IH x) (all rest)
                         end) d)
            | VObj t => HO t
            end).
Qed.


Lemma strip_prefix_app p s : strip_prefix p (p ++ s) = Some s.
Proof.
  induction p as [|a p IH]; simpl; [reflexivity|].
  now rewrite Ascii.eqb_refl.
Qed.

Lemma append_assoc_str (a b c : string) : (a ++ b) ++ c = a ++ (b ++ c).
Proof. induction a; simpl; congruence. Qed.

Lemma length_append_str (a b : string) :
  String.length (a ++ b) = (String.length a + String.length b)%nat.
Proof. induction a; simpl; congruence. Qed.

Lemma read_string_escape_char c r :
  read_string (escape_char c ++ r) = prepend c (read_string r).
Proof.
  destruct c as [[] [] [] [] [] [] [] []]; reflexivity.
Qed.

Lemma read_string_escape s rest :
  read_string (escape s ++ String dquote rest) = Some (s, rest).
Proof.
  induction s as [|c s IH]; simpl; [reflexivity|].
  rewrite append_assoc_str, read_string_escape_char, IH. reflexivity.
Qed.

Lemma read_digits_uint d rest :
  no_digit_head rest ->
  read_digits (NilEmpty.string_of_uint d ++ rest) = (d, rest).
Proof.
  intros Hr. induction d; simpl; try (rewrite IHd; reflexivity).
  destruct rest as [|c rest]; [reflexivity|]. simpl in *. now rewrite Hr.
Qed.

Lemma uint_head u rest :
  u <> Decimal.Nil ->
  exists c s, NilEmpty.string_of_uint u ++ rest = String c s /\
              digit_of c <> None /\
              NilZero.string_of_uint u = NilEmpty.string_of_uint u.
Proof.
  intros Hu. destruct u; [contradiction | ..];
    (eexists; eexists; split; [reflexivity | split; [discriminate | reflexivity]]).
Qed.

Lemma digit_not_minus c s : digit_of c <> None -> strip_prefix "-" (String c s) = None.
Proof.
  destruct c as [[] [] [] [] [] [] [] []]; intros H; try reflexivity; now elim H.
Qed.

Lemma read_int_decimal n rest :
  no_digit_head rest -> read_int (decimal n ++ rest) = Some (n, rest).
Proof.
  intros Hr. unfold decimal.
  destruct n as [|p|p]; unfold Z.to_int, NilZero.string_of_int.
  - change (NilZero.string_of_uint (Decimal.D0 Decimal.Nil) ++ rest) with (String "0" rest).
    unfold read_int. cbn [strip_prefix Ascii.eqb Bool.eqb].
    cbn [read_digits digit_of Ascii.eqb Bool.eqb].
    pose proof (read_digits_uint Decimal.Nil rest Hr) as H0.
    cbn [NilEmpty.string_of_uint append] in H0. rewrite H0. reflexivity.
  - pose proof (DecimalPos.Unsigned.to_uint_nonnil p) as Hnn.
    destruct (uint_head (Pos.to_uint p) rest Hnn) as (c & s & Hs & Hc & ->).
    unfold read_int. rewrite Hs, (digit_not_minus c s Hc), <- Hs.
    rewrite (read_digits_uint _ rest Hr).
    transitivity (Some (Z.of_int (Decimal.Pos (Pos.to_uint p)), rest)).
    + destruct (Pos.to_uint p); [contradiction | ..]; reflexivity.
    + do 2 f_equal. exact (DecimalZ.of_to (Z.pos p)).
  - pose proof (DecimalPos.Unsigned.to_uint_nonnil p) as Hnn.
    destruct (uint_head (Pos.to_uint p) rest Hnn) as (c & s & Hs & Hc & ->).
    unfold read_int.
    change (String "-" (NilEmpty.string_of_uint (Pos.to_uint p)) ++ rest)
      with ("-" ++ (NilEmpty.string_of_uint (Pos.to_uint p) ++ rest)).
    rewrite strip_prefix_app, (read_digits_uint _ rest Hr).
    transitivity (Some (Z.of_int (Decimal.Neg (Pos.to_uint p)), rest)).
    + destruct (Pos.to_uint p); [contradiction | ..]; reflexivity.
    + do 2 f_equal. exact (DecimalZ.of_to (Z.neg p)).
Qed.


Lemma read_elements_S f s :
  read_elements (S f) s
  = match read_value f s with
    | Some (v, r) =>
        match strip_prefix "]" r with
        | Some r' => Some ([v], r')
        | None =>
            match strip_prefix ", " r with
            | Some r' =>
                match read_elements f r' with
                | Some (l, r'') => Some (v :: l, r'')
                | None => None
                end
            | None => None
            end
        end
    | None => None
    end.
Proof. reflexivity. Qed.

Lemma read_members_S f s :
  read_members (S f) s
  = match strip_prefix (String dquote "") s with
    | Some r =>
        match read_string r with
        | Some (k, r1) =>
            match strip_prefix ": " r1 with
            | Some r2 =>
                match read_value f r2 with
                | Some (v, r3) =>
                    match strip_prefix "}" r3 with
                    | Some r' => Some ([(k, v)], r')
                    | None =>
                        match strip_prefix ", " r3 with
                        | Some r4 =>
                            match read_members f r4 with
                            | Some (d, r') => Some ((k, v) :: d, r')
                            | None => None
                            end
                        | None => None
                        end
                    end
                | None => None
                end
            | None => None
            end
        | None => None
        end
    | None => None
    end.
Proof. reflexivity. Qed.

Lemma int_head_dispatch c s :
  int_head c = true ->
  strip_prefix "null" (String c s) = None /\
  strip_prefix "true" (String c s) = None /\
  strip_prefix "false" (String c s) = None /\
  strip_prefix (String dquote "") (String c s) = None /\
  strip_prefix "[" (String c s) = None /\
  strip_prefix "{" (String c s) = None.
Proof.
  destruct c as [[] [] [] [] [] [] [] []]; intros H; try discriminate H;
    repeat split; reflexivity.
Qed.

Lemma value_head_not_close c s :
  value_head c = true -> strip_prefix "]" (String c s) = None.
Proof.
  destruct c as [[] [] [] [] [] [] [] []]; intros H; try discriminate H; reflexivity.
Qed.

Lemma decimal_head n rest :
  exists c s, decimal n ++ rest = String c s /\ int_head c = true.
Proof.
  unfold decimal. destruct n as [|p|p]; unfold Z.to_int, NilZero.string_of_int.
  - eexists; eexists; split; reflexivity.
  - destruct (uint_head (Pos.to_uint p) rest (DecimalPos.Unsigned.to_uint_nonnil p))
      as (c & s & Hs & Hc & ->).
    exists c, s. split; [exact Hs|]. unfold int_head.
    destruct (digit_of c); [apply orb_true_r | now elim Hc].
  - eexists; eexists; split; reflexivity.
Qed.

Lemma json_encode_head v rest :
  exists c s, json_encode v ++ rest = String c s /\ value_head c = true.
Proof.
  destruct v as [|[]|n| | | |]; try (eexists; eexists; split; reflexivity).
  destruct (decimal_head n rest) as (c & s & Hs & Hc).
  exists c, s. split; [exact Hs|]. unfold value_head. now rewrite Hc.
Qed.

Lemma read_value_int f n rest :
  no_digit_head rest ->
  read_value (S f) (decimal n ++ rest) = Some (VInt n, rest).
Proof.
  intros Hr. pose proof (read_int_decimal n rest Hr) as Hi.
  destruct (decimal_head n rest) as (c & s & Hs & Hc).
  rewrite Hs in *.
  destruct (int_head_dispatch c s Hc) as (H1 & H2 & H3 & H4 & H5 & H6).
  cbn [read_value]. rewrite H1, H2, H3, H4, H5, H6, Hi. reflexivity.
Qed.

Lemma read_value_string f s rest :
  read_value (S f) (json_string s ++ rest) = Some (VStr s, rest).
Proof.
  unfold json_string, quoted.
  change (String dquote (escape s ++ String dquote "") ++ rest)
    with (String dquote ((escape s ++ String dquote "") ++ rest)).
  rewrite append_assoc_str.
  change (String dquote "" ++ rest) with (String dquote rest).
  cbn [read_value strip_prefix Ascii.eqb Bool.eqb dquote].
  fold dquote. now rewrite read_string_escape.
Qed.

Lemma read_elements_encode l :
  Forall reads_back l -> l <> [] ->
  forall fuel rest,
    (list_sum (map (fun x => S (json_fuel x)) l) < fuel)%nat ->
    read_elements fuel (join ", " (map json_encode l) ++ "]" ++ rest)
    = Some (map as_json l, rest).
Proof.
  induction 1 as [|x l Hx Hl IH]; [congruence|]. intros _ fuel rest Hf.
  destruct fuel as [|f]; [lia|]. unfold reads_back in Hx. simpl in Hf.
  rewrite read_elements_S.
  destruct l as [|y l].
  - cbn [map join]. rewrite Hx; [ | lia | exact eq_refl ].
    rewrite strip_prefix_app. reflexivity.
  - change (join ", " (map json_encode (x :: y :: l)))
      with (json_encode x ++ ", " ++ join ", " (map json_encode (y :: l))).
    rewrite !append_assoc_str.
    rewrite Hx; [ | lia | exact eq_refl ].
    change (strip_prefix "]" (", " ++ join ", " (map json_encode (y :: l)) ++ "]" ++ rest))
      with (@None string).
    rewrite strip_prefix_app.
    rewrite IH by first [discriminate | lia | (simpl in *; lia)]. reflexivity.
Qed.

Lemma read_members_encode d :
  Forall (fun kv => reads_back (snd kv)) d -> d <> [] ->
  forall fuel rest,
    (list_sum (map (fun kv => S (json_fuel (snd kv))) d) < fuel)%nat ->
    read_members fuel
      (join ", " (map (fun kv => json_string (fst kv) ++ ": " ++ json_encode (snd kv)) d)
       ++ "}" ++ rest)
    = Some (map (fun kv => (fst kv, as_json (snd kv))) d, rest).
Proof.
  induction 1 as [|[k x] d Hx Hd IH]; [congruence|]. intros _ fuel rest Hf.
  destruct fuel as [|f]; [lia|]. unfold reads_back in Hx. simpl in Hf, Hx.
  rewrite read_members_S.
  assert (Hkey : forall tail,
             match strip_prefix (String dquote "") (json_string k ++ tail) with
             | Some r => read_string r
             | None => None
             end = Some (k, tail)).
  { intros tail. unfold json_string, quoted.
    change (String dquote (escape k ++ String dquote "") ++ tail)
      with (String dquote "" ++ ((escape k ++ String dquote "") ++ tail)).
    rewrite strip_prefix_app, append_assoc_str.
    apply read_string_escape. }
  destruct d as [|m d].
  - cbn [map join fst snd]. rewrite !append_assoc_str.
    specialize (Hkey (": " ++ json_encode x ++ "}" ++ rest)).
    destruct (strip_prefix (String dquote "") _) as [r|]; [|discriminate].
    rewrite Hkey, strip_prefix_app.
    rewrite Hx; [ | lia | exact eq_refl ].
    rewrite strip_prefix_app. reflexivity.
  - change (join ", " (map (fun kv => json_string (fst kv) ++ ": " ++ json_encode (snd kv))
                           ((k, x) :: m :: d)))
      with ((json_string k ++ ": " ++ json_encode x) ++ ", "
            ++ join ", " (map (fun kv => json_string (fst kv) ++ ": "
                                            ++ json_encode (snd kv)) (m :: d))).
    rewrite !append_assoc_str.
    match goal with
    | |- context [json_string k ++ ?tail] => specialize (Hkey tail)
    end.
    destruct (strip_prefix (String dquote "") _) as [r|]; [|discriminate].
    rewrite Hkey, strip_prefix_app.
    rewrite Hx; [ | lia | exact eq_refl ].
    match goal with
    | |- context [strip_prefix "}" (", " ++ ?tail)] =>
        change (strip_prefix "}" (", " ++ tail)) with (@None string)
    end.
    rewrite strip_prefix_app.
    rewrite IH by first [discriminate | lia | (simpl in *; lia)]. reflexivity.
Qed.

Lemma read_value_array f r :
  read_value (S f) (String "[" r)
  = match strip_prefix "]" r with
    | Some r' => Some (VList [], r')
    | None =>
        match read_elements f r with
        | Some (l, r') => Some (VList l, r')
        | None => None
        end
    end.
Proof. reflexivity. Qed.

Lemma read_value_object f r :
  read_value (S f) (String "{" r)
  = match strip_prefix "}" r with
    | Some r' => Some (VDict [], r')
    | None =>
        match read_members f r with
        | Some (d, r') => Some (VDict d, r')
        | None => None
        end
    end.
Proof. reflexivity. Qed.

Lemma read_value_encode v : reads_back v.
Proof.
  induction v as [| b | n | s | l Hl | d Hd | t] using value_nested_ind;
    intros fuel rest Hf Hr; (destruct fuel as [|f]; [lia|]).
  - reflexivity.
  - destruct b; reflexivity.
  - now apply read_value_int.
  - apply read_value_string.
  - destruct l as [|x l]; [reflexivity|].
    simpl in Hf.
    change (json_encode (VList (x :: l)) ++ rest)
      with (String "[" ((join ", " (map json_encode (x :: l)) ++ "]") ++ rest)).
    rewrite append_assoc_str, read_value_array.
    assert (Hclose : strip_prefix "]"
                       (join ", " (map json_encode (x :: l)) ++ "]" ++ rest) = None).
    { destruct l as [|y l].
      - cbn [map join].
        destruct (json_encode_head x ("]" ++ rest)) as (c & s & -> & Hc).
        now apply value_head_not_close.
      - change (join ", " (map json_encode (x :: y :: l)))
          with (json_encode x ++ ", " ++ join ", " (map json_encode (y :: l))).
        rewrite append_assoc_str.
        destruct (json_encode_head x ((", " ++ join ", " (map json_encode (y :: l)))
                                      ++ "]" ++ rest)) as (c & s & -> & Hc).
        now apply value_head_not_close. }
    rewrite Hclose.
    rewrite (read_elements_encode (x :: l) Hl) by first [discriminate | lia | (simpl in *; lia)].
    reflexivity.
  - destruct d as [|[k x] d]; [reflexivity|].
    simpl in Hf.
    change (json_encode (VDict ((k, x) :: d)) ++ rest)
      with (String "{"
              ((join ", " (map (fun kv => json_string (fst kv) ++ ": "
                                            ++ json_encode (snd kv)) ((k, x) :: d))
                ++ "}") ++ rest)).
    rewrite append_assoc_str, read_value_object.
    assert (Hclose : strip_prefix "}"
                       (join ", " (map (fun kv => json_string (fst kv) ++ ": "
                                                     ++ json_encode (snd kv))
                                       ((k, x) :: d)) ++ "}" ++ rest) = None).
    { destruct d as [|m d]; reflexivity. }
    rewrite Hclose.
    rewrite (read_members_encode ((k, x) :: d) Hd) by first [discriminate | lia | (simpl in *; lia)].
    reflexivity.
  - apply (read_value_string f t rest).
Qed.

Lemma append_nil_r (s : string) : s ++ "" = s.
Proof. induction s; simpl; congruence. Qed.

Lemma elements_fuel_le l :
  Forall (fun x => json_fuel x <= String.length (json_encode x))%nat l ->
  (list_sum (map (fun x => S (json_fuel x)) l)
   <= S (String.length (join ", " (map json_encode l))))%nat.
Proof.
  induction 1 as [|x l Hx Hl IH]; [simpl; lia|].
  destruct l as [|y l].
  - simpl. lia.
  - change (join ", " (map json_encode (x :: y :: l)))
      with (json_encode x ++ ", " ++ join ", " (map json_encode (y :: l))).
    rewrite !length_append_str.
    change (list_sum (map (fun x => S (json_fuel x)) (x :: y :: l)))
      with (S (json_fuel x) + list_sum (map (fun x => S (json_fuel x)) (y :: l)))%nat.
    change (String.length ", ") with 2%nat. lia.
Qed.

Lemma members_fuel_le d :
  Forall (fun kv => json_fuel (snd kv) <= String.length (json_encode (snd kv)))%nat d ->
  (list_sum (map (fun kv => S (json_fuel (snd kv))) d)
   <= S (String.length
           (join ", " (map (fun kv => json_string (fst kv) ++ ": "
                                         ++ json_encode (snd kv)) d))))%nat.
Proof.
  induction 1 as [|[k x] d Hx Hd IH]; [simpl; lia|].
  simpl in Hx.
  destruct d as [|m d].
  - cbn [map join fst snd]. rewrite !length_append_str.
    change (list_sum [S (json_fuel x)]) with (S (json_fuel x) + 0)%nat. lia.
  - change (join ", " (map (fun kv => json_string (fst kv) ++ ": " ++ json_encode (snd kv))
                           ((k, x) :: m :: d)))
      with ((json_string k ++ ": " ++ json_encode x) ++ ", "
            ++ join ", " (map (fun kv => json_string (fst kv) ++ ": "
                                            ++ json_encode (snd kv)) (m :: d))).
    rewrite !length_append_str.
    change (list_sum (map (fun kv => S (json_fuel (snd kv))) ((k, x) :: m :: d)))
      with (S (json_fuel x)
            + list_sum (map (fun kv => S (json_fuel (snd kv))) (m :: d)))%nat.
    change (String.length ", ") with 2%nat. lia.
Qed.

Lemma json_fuel_le v : (json_fuel v <= String.length (json_encode v))%nat.
Proof.
  induction v as [| b | n | s | l Hl | d Hd | t] using value_nested_ind;
    try (simpl; lia).
  - change (json_encode (VList l)) with ("[" ++ join ", " (map json_encode l) ++ "]").
    rewrite !length_append_str. pose proof (elements_fuel_le l Hl) as Hsum.
    change (json_fuel (VList l))
      with (S (list_sum (map (fun x => S (json_fuel x)) l))).
    change (String.length "[") with 1%nat. change (String.length "]") with 1%nat. lia.
  - change (json_encode (VDict d))
      with ("{" ++ join ", " (map (fun kv => json_string (fst kv) ++ ": "
                                              ++ json_encode (snd kv)) d) ++ "}").
    rewrite !length_append_str. pose proof (members_fuel_le d Hd) as Hsum.
    change (json_fuel (VDict d))
      with (S (list_sum (map (fun kv => S (json_fuel (snd kv))) d))).
    change (String.length "{") with 1%nat. change (String.length "}") with 1%nat. lia.
Qed.

Lemma json_loads_encode v : json_loads (json_encode v) = Some (as_json v).
Proof.
  unfold json_loads.
  rewrite <- (append_nil_r (json_encode v)) at 2.
  rewrite read_value_encode; [reflexivity | | exact I].
  pose proof (json_fuel_le v). lia.
Qed.

(* ================================================================= *)
(** ** Properties of the protocol layer *)

Lemma serve_cons {R : Type} (dispatch : R -> M Response) data rest self r :
  dispatch data self = (r, self) ->
  serve dispatch (data :: rest) self
  = (r :: fst (serve dispatch rest self), snd (serve dispatch rest self)).
Proof.
  intros H. simpl. rewrite H. now destruct (serve dispatch rest self).
Qed.

(** C1. For a [tools/call] request that names a registered tool, when the
    call of the handler raises an exception (an instance of [Exception], as
    the [except] clause says), the dispatcher returns the error envelope
    with code -32603 whose message is the text of the exception.  Nothing is
    raised out of the dispatcher, the server object is left as it was, and
    the requests that follow are served as they would have been. *)
Theorem handler_exception_becomes_internal_error
        (interp_text : interp_error -> string) (py_repr_container : value -> string)
        d p tname entry e self :
  request_method d = VStr "tools/call" ->
  request_params d = VDict p ->
  tool_name_of p = VStr tname ->
  dict_get (tools self) tname = Some entry ->
  call_kwargs interp_text (t_handler entry) (arguments_of p) = Raises e ->
  exc_is_Exception e = true ->
  exists message,
    contains message (exc_str e) /\
    _handle_mcp_request interp_text py_repr_container (decoded (VDict d)) self
    = (Returns (jsonify (error_envelope (request_id d) (-32603) message)), self) /\
    forall rest,
      serve (_handle_mcp_request interp_text py_repr_container)
            (decoded (VDict d) :: rest) self
      = (Returns (jsonify (error_envelope (request_id d) (-32603) message))
           :: fst (serve (_handle_mcp_request interp_text py_repr_container) rest self),
         snd (serve (_handle_mcp_request interp_text py_repr_container) rest self)).
Proof.
  intros Hm Hp Hn He Hc Hx.
  pose proof (handle_tool_call interp_text py_repr_container d p tname entry self
                Hm Hp Hn He) as H.
  rewrite Hc in H. unfold call_response, caught in H. rewrite Hx in H.
  exists (exc_str e). split; [apply contains_refl|]. split; [exact H|].
  intros rest. now apply serve_cons.
Qed.

Lemma handler_exception_becomes_internal_error_witness :
  exists message,
    contains message "boom" /\
    _handle_mcp_request Scenario.wording Scenario.rendering
      (decoded (call_request (VInt 7) "boom" (VDict []))) Scenario.test_server
    = (Returns (jsonify (error_envelope (VInt 7) (-32603) message)),
       Scenario.test_server) /\
    forall rest,
      serve (_handle_mcp_request Scenario.wording Scenario.rendering)
            (decoded (call_request (VInt 7) "boom" (VDict [])) :: rest)
            Scenario.test_server
      = (Returns (jsonify (error_envelope (VInt 7) (-32603) message))
           :: fst (serve (_handle_mcp_request Scenario.wording Scenario.rendering)
                     rest Scenario.test_server),
         snd (serve (_handle_mcp_request Scenario.wording Scenario.rendering)
                rest Scenario.test_server)).
Proof.
  eapply (handler_exception_becomes_internal_error
            Scenario.wording Scenario.rendering
            [("jsonrpc", VStr "2.0"); ("id", VInt 7); ("method", VStr "tools/call");
             ("params", VDict [("name", VStr "boom"); ("arguments", VDict [])])]
            [("name", VStr "boom"); ("arguments", VDict [])]
            "boom" _
            {| exc_class := "ValueError"; exc_is_Exception := true; exc_str := "boom" |}
            Scenario.test_server); reflexivity.
Defined.

(** C10. For a [tools/call] of a registered tool whose arguments do not
    bind to the parameters of the handler (a keyword names no parameter, or
    a parameter without default gets no value), the call raises a
    [TypeError] before the body of the handler runs, and the dispatcher
    answers with the error envelope of code -32603 that carries its text. *)
Theorem unbound_arguments_become_internal_error
        (interp_text : interp_error -> string) (py_repr_container : value -> string)
        d p tname entry kwargs self :
  request_method d = VStr "tools/call" ->
  request_params d = VDict p ->
  tool_name_of p = VStr tname ->
  dict_get (tools self) tname = Some entry ->
  arguments_of p = VDict kwargs ->
  does_not_bind (t_handler entry) kwargs ->
  exists k,
    interp_class k = "TypeError" /\
    call_kwargs interp_text (t_handler entry) (VDict kwargs)
    = Raises (interp_exc interp_text k) /\
    _handle_mcp_request interp_text py_repr_container (decoded (VDict d)) self
    = (Returns (jsonify (error_envelope (request_id d) (-32603) (interp_text k))), self).
Proof.
  intros Hm Hp Hn He Ha Hb.
  destruct (unbound_call_raises interp_text _ _ Hb) as (k & Hk & Hc).
  exists k. split; [exact Hk|]. split; [exact Hc|].
  rewrite (handle_tool_call interp_text py_repr_container d p tname entry self
             Hm Hp Hn He).
  rewrite Ha, Hc. reflexivity.
Qed.

Lemma unbound_arguments_become_internal_error_witness :
  exists k,
    interp_class k = "TypeError" /\
    _handle_mcp_request Scenario.wording Scenario.rendering
      (decoded (call_request (VStr "r1") "get_government_service_info" (VDict [])))
      Scenario.server
    = (Returns (jsonify (error_envelope (VStr "r1") (-32603) (Scenario.wording k))),
       Scenario.server).
Proof.
  pose proof (fun entry =>
                unbound_arguments_become_internal_error
                  Scenario.wording Scenario.rendering
                  [("jsonrpc", VStr "2.0"); ("id", VStr "r1");
                   ("method", VStr "tools/call");
                   ("params", VDict [("name", VStr "get_government_service_info");
                                     ("arguments", VDict [])])]
                  [("name", VStr "get_government_service_info"); ("arguments", VDict [])]
                  "get_government_service_info" entry [] Scenario.server
                  eq_refl eq_refl eq_refl) as H.
  specialize (H _ eq_refl eq_refl).
  destruct H as (k & Hk & _ & H).
  - right. exists "service_name". split; [left; reflexivity | reflexivity].
  - exists k. split; [exact Hk | exact H].
Defined.

(** C4, at the inputs where the code departs from it.  The claim asks for
    the Parse Error envelope, with id null, for every payload that cannot be
    decoded.  [request.get_json()] is called without [silent]: on a body
    that is not JSON it raises [BadRequest], and on a content type that is
    not JSON it raises [UnsupportedMediaType], before [if not data] is
    reached.  The dispatcher raises, and its Parse Error branch only answers
    documents that were decoded and are falsy ([handle_falsy]). *)
Theorem undecodable_payload_gets_no_parse_error
        (interp_text : interp_error -> string) (py_repr_container : value -> string)
        (self : MCPServer) :
  _handle_mcp_request interp_text py_repr_container
    {| is_json := true; json_body := None |} self
  = (Raises {| exc_class := "BadRequest"; exc_is_Exception := true;
               exc_str := interp_text JsonLoadingFailed |},
     self)
  /\
  forall body,
    _handle_mcp_request interp_text py_repr_container
      {| is_json := false; json_body := body |} self
    = (Raises {| exc_class := "UnsupportedMediaType"; exc_is_Exception := true;
                 exc_str := interp_text NotJsonContentType |},
       self).
Proof.
  split; reflexivity.
Qed.

(** C3. A [tools/call] whose name is not registered is answered with the
    error envelope of code -32601, the id of the request, and a message that
    contains the name; a request whose method is none of [initialize],
    [tools/list] and [tools/call] is answered with code -32601, the id of
    the request, and a message that contains the method.  (The second part
    is about decoded non-empty objects: the empty object is falsy and is
    answered with the Parse Error envelope.) *)
Theorem unknown_tool_or_method_not_found
        (interp_text : interp_error -> string) (py_repr_container : value -> string) :
  (forall d p self,
      request_method d = VStr "tools/call" ->
      request_params d = VDict p ->
      unregistered self (tool_name_of p) ->
      exists message,
        contains message (py_str py_repr_container (tool_name_of p)) /\
        _handle_mcp_request interp_text py_repr_container (decoded (VDict d)) self
        = (Returns (jsonify (error_envelope (request_id d) (-32601) message)), self))
  /\
  (forall d self,
      d <> [] ->
      unsupported (request_method d) ->
      exists message,
        contains message (py_str py_repr_container (request_method d)) /\
        _handle_mcp_request interp_text py_repr_container (decoded (VDict d)) self
        = (Returns (jsonify (error_envelope (request_id d) (-32601) message)), self)).
Proof.
  split.
  - intros d p self Hm Hp Hu.
    exists ("Tool not found: " ++ py_str py_repr_container (tool_name_of p)).
    split; [apply contains_suffix|].
    apply handle_tool_not_found; auto using unregistered_not_in.
  - intros d self Hne Hu.
    exists ("Method not found: " ++ py_str py_repr_container (request_method d)).
    split; [apply contains_suffix|].
    destruct (unsupported_eq _ Hu) as (H1 & H2 & H3).
    now apply handle_unknown_method.
Qed.

Lemma unknown_tool_or_method_not_found_witness :
  (exists message,
      contains message "missing" /\
      _handle_mcp_request Scenario.wording Scenario.rendering
        (decoded (VDict [("id", VInt 3); ("method", VStr "tools/call");
                ("params", VDict [("name", VStr "missing")])]))
        Scenario.server
      = (Returns (jsonify (error_envelope (VInt 3) (-32601) message)), Scenario.server))
  /\
  (exists message,
      contains message "foo/bar" /\
      _handle_mcp_request Scenario.wording Scenario.rendering
        (decoded (VDict [("id", VInt 4); ("method", VStr "foo/bar")])) Scenario.server
      = (Returns (jsonify (error_envelope (VInt 4) (-32601) message)), Scenario.server)).
Proof.
  destruct (unknown_tool_or_method_not_found Scenario.wording Scenario.rendering)
    as [Htool Hmethod].
  split.
  - apply (Htool [("id", VInt 3); ("method", VStr "tools/call");
                  ("params", VDict [("name", VStr "missing")])]
                 [("name", VStr "missing")] Scenario.server); reflexivity.
  - apply (Hmethod [("id", VInt 4); ("method", VStr "foo/bar")] Scenario.server).
    + discriminate.
    + repeat split; discriminate.
Defined.

Lemma json_dumps_returns interp_text v text :
  json_dumps interp_text v = Returns text -> text = json_encode v.
Proof.
  unfold json_dumps. destruct (has_long_int v); [discriminate|]. congruence.
Qed.

Lemma json_dumps_raises interp_text v e :
  json_dumps interp_text v = Raises e ->
  e = interp_exc interp_text IntTooLong /\ has_long_int v = true.
Proof.
  unfold json_dumps. destruct (has_long_int v); [|discriminate].
  intros H. injection H as <-. auto.
Qed.

Lemma googol_is_too_long : has_long_int (VInt (10 ^ 4300)) = true.
Proof. vm_compute. reflexivity. Qed.

(** C5 as stated fails: a handler that returns normally an [int] of 4301
    digits is answered with the -32603 error envelope, because
    [json.dumps] raises [ValueError] inside the [try] block. *)
Lemma long_int_result_is_not_serialized : ~ every_result_is_serialized.
Proof.
  intros H.
  set (r := {| r_name := "googol"; r_description := "Googol";
               r_parameters := []; r_func := googol |}).
  set (self := register r (MCPServer_init "test" "Test server" "2.0.0")).
  set (p := [("name", VStr "googol")]).
  set (d := [("id", VInt 1); ("method", VStr "tools/call"); ("params", VDict p)]).
  assert (Hanswer :
            _handle_mcp_request Scenario.wording Scenario.rendering
              (decoded (VDict d)) self
            = (Returns (jsonify (error_envelope (VInt 1) (-32603)
                                   (Scenario.wording IntTooLong))), self)).
  { rewrite (handle_tool_call Scenario.wording Scenario.rendering d p "googol"
               (entry_of r) self eq_refl eq_refl eq_refl eq_refl).
    change (call_kwargs Scenario.wording (t_handler (entry_of r)) (arguments_of p))
      with (@Returns value (VInt (10 ^ 4300))).
    unfold call_response, json_dumps. rewrite googol_is_too_long. reflexivity. }
  destruct (H Scenario.wording Scenario.rendering d p "googol" (entry_of r)
              (VInt (10 ^ 4300)) self eq_refl eq_refl eq_refl eq_refl eq_refl)
    as [text Ht].
  rewrite Hanswer in Ht. discriminate Ht.
Qed.

(** C5, amended. For a [tools/call] of a registered tool whose handler
    returns a value, the answer is decided by [json.dumps]: when it returns
    a text, the answer is the result envelope whose result is a [content]
    list with one item of type [text] holding that text, and the text is
    the JSON of the returned value (read back, it gives the value, an object
    outside JSON as the string of its [str]); when it raises, the answer is
    the -32603 error envelope with the text of the exception.  For the tool
    [echo] called with [{"text": "hi"}] the text is the JSON string hi,
    quotes included. *)
Theorem tool_result_is_serialized_text
        (interp_text : interp_error -> string) (py_repr_container : value -> string) :
  (forall d p tname entry result self,
      request_method d = VStr "tools/call" ->
      request_params d = VDict p ->
      tool_name_of p = VStr tname ->
      dict_get (tools self) tname = Some entry ->
      call_kwargs interp_text (t_handler entry) (arguments_of p) = Returns result ->
      (forall text,
          json_dumps interp_text result = Returns text ->
          _handle_mcp_request interp_text py_repr_container (decoded (VDict d)) self
          = (Returns (jsonify (VDict [
                 ("jsonrpc", VStr "2.0");
                 ("id", request_id d);
                 ("result", VDict [
                    ("content", VList [VDict [("type", VStr "text");
                                              ("text", VStr text)]])])])),
             self) /\
          json_loads text = Some (as_json result))
      /\
      (forall e,
          json_dumps interp_text result = Raises e ->
          _handle_mcp_request interp_text py_repr_container (decoded (VDict d)) self
          = (Returns (jsonify (error_envelope (request_id d) (-32603) (exc_str e))),
             self)))
  /\
  (forall id entry self,
      dict_get (tools self) "echo" = Some entry ->
      t_handler entry = Scenario.echo ->
      _handle_mcp_request interp_text py_repr_container
        (decoded (call_request id "echo" (VDict [("text", VStr "hi")]))) self
      = (Returns (jsonify (result_envelope id
                             (text_content (String dquote ("hi" ++ String dquote ""))))),
         self) /\
      json_loads (String dquote ("hi" ++ String dquote "")) = Some (VStr "hi")).
Proof.
  split.
  - intros d p tname entry result self Hm Hp Hn He Hc.
    rewrite (handle_tool_call interp_text py_repr_container d p tname entry self
               Hm Hp Hn He).
    rewrite Hc. unfold call_response. split.
    + intros text Ht. rewrite Ht. split; [reflexivity|].
      apply json_dumps_returns in Ht. subst text. apply json_loads_encode.
    + intros e Ht. rewrite Ht.
      apply json_dumps_raises in Ht as [-> _]. reflexivity.
  - intros id entry self He Hh. split; [|reflexivity].
    unfold call_request.
    rewrite (handle_tool_call interp_text py_repr_container
               [("jsonrpc", VStr "2.0"); ("id", id); ("method", VStr "tools/call");
                ("params", VDict [("name", VStr "echo");
                                  ("arguments", VDict [("text", VStr "hi")])])]
               [("name", VStr "echo"); ("arguments", VDict [("text", VStr "hi")])]
               "echo" entry self eq_refl eq_refl eq_refl He).
    rewrite Hh. reflexivity.
Qed.

Lemma tool_result_is_serialized_text_witness :
  _handle_mcp_request Scenario.wording Scenario.rendering
    (decoded (call_request (VInt 1) "echo" (VDict [("text", VStr "hi")])))
    Scenario.test_server
  = (Returns (jsonify (result_envelope (VInt 1)
                         (text_content (String dquote ("hi" ++ String dquote ""))))),
     Scenario.test_server) /\
  json_loads (String dquote ("hi" ++ String dquote "")) = Some (VStr "hi").
Proof.
  destruct (tool_result_is_serialized_text Scenario.wording Scenario.rendering)
    as [_ Hecho].
  eapply Hecho; reflexivity.
Defined.

(** C2, at the input where the code departs from it.  The claim asks for
    exactly one envelope for every inbound request.  For the decoded JSON
    array [[1]] the payload is truthy, so the Parse Error branch is skipped,
    and [data.get] raises [AttributeError] outside any [try]: the dispatcher
    raises and produces no envelope.  (The empty array and the empty object
    are answered by the Parse Error branch, and a decoded object that is
    well shaped always gets its envelope: [shaped_request_gets_one_envelope]
    below.) *)
Theorem array_payload_gets_no_envelope
        (interp_text : interp_error -> string) (py_repr_container : value -> string)
        (self : MCPServer) :
  _handle_mcp_request interp_text py_repr_container (decoded (VList [VInt 1])) self
  = (Raises {| exc_class := "AttributeError"; exc_is_Exception := true;
               exc_str := interp_text (NoAttribute "list" "get") |},
     self).
Proof.
  reflexivity.
Qed.

Lemma register_tools_eq r self :
  tools (register r self)
  = dict_set (tools self) (r_name r)
      {| t_name := r_name r; t_description := r_description r;
         t_inputSchema := input_schema (r_parameters r); t_handler := r_func r |}.
Proof. reflexivity. Qed.

Lemma register_all_keeps rs : forall self tname,
  (forall r, In r rs -> r_name r <> tname) ->
  dict_get (tools (register_all rs self)) tname = dict_get (tools self) tname.
Proof.
  induction rs as [|r rs IH]; intros self tname Hne; simpl; [reflexivity|].
  unfold register_all in IH. rewrite IH by (intros r' Hr'; apply Hne; now right).
  rewrite register_tools_eq. apply dict_get_set_other. apply Hne. now left.
Qed.

(** C6. After a tool was registered under a name, with a description and a
    parameter schema, and whatever was registered later under other names,
    the result of [tools/list] has an entry with that name and with the
    object schema made of the properties and the required list that were
    passed. *)
Theorem registered_tool_is_listed
        (interp_text : interp_error -> string) (py_repr_container : value -> string)
        self tname descr parameters func later d :
  (forall r, In r later -> r_name r <> tname) ->
  request_method d = VStr "tools/list" ->
  exists listing,
    _handle_mcp_request interp_text py_repr_container (decoded (VDict d))
      (register_all later (snd (tool tname descr parameters func self)))
    = (Returns (jsonify (result_envelope (request_id d)
                           (VDict [("tools", VList listing)]))),
       register_all later (snd (tool tname descr parameters func self))) /\
    In (VDict [("name", VStr tname);
               ("description", VStr descr);
               ("inputSchema",
                VDict [("type", VStr "object");
                       ("properties",
                        dict_get_default parameters "properties" (VDict []));
                       ("required",
                        dict_get_default parameters "required" (VList []))])])
       listing.
Proof.
  intros Hlater Hm.
  set (self' := register_all later (snd (tool tname descr parameters func self))).
  exists (map tool_listing (dict_values (tools self'))). split.
  - now apply handle_tools_list.
  - set (entry := {| t_name := tname; t_description := descr;
                     t_inputSchema := input_schema parameters; t_handler := func |}).
    change (In (tool_listing entry) (map tool_listing (dict_values (tools self')))).
    apply in_map. apply dict_get_In with (k := tname).
    unfold self'. rewrite register_all_keeps by exact Hlater.
    apply (dict_get_set_same (tools self) tname entry).
Qed.

Lemma registered_tool_is_listed_witness :
  exists listing,
    _handle_mcp_request Scenario.wording Scenario.rendering
      (decoded (VDict [("id", VInt 2); ("method", VStr "tools/list")])) Scenario.test_server
    = (Returns (jsonify (result_envelope (VInt 2) (VDict [("tools", VList listing)]))),
       Scenario.test_server) /\
    In (VDict [("name", VStr "echo");
               ("description", VStr "Echo");
               ("inputSchema",
                VDict [("type", VStr "object");
                       ("properties", VDict [("text", VDict [("type", VStr "string")])]);
                       ("required", VList [VStr "text"])])])
       listing.
Proof.
  apply (registered_tool_is_listed Scenario.wording Scenario.rendering
           (MCPServer_init "test" "Test server" "2.0.0")
           "echo" "Echo" Scenario.echo_parameters Scenario.echo
           [Scenario.boom_registration]
           [("id", VInt 2); ("method", VStr "tools/list")]).
  - intros r [<- | []]. discriminate.
  - reflexivity.
Defined.

(** C7. An [initialize] or [tools/list] request leaves the server object,
    and so the registry, as it was, and is answered with a result envelope;
    the same request sent any number of times in a row gets the same answer
    every time. *)
Theorem initialize_and_list_are_idempotent
        (interp_text : interp_error -> string) (py_repr_container : value -> string)
        d self :
  request_method d = VStr "initialize" \/ request_method d = VStr "tools/list" ->
  exists result,
    _handle_mcp_request interp_text py_repr_container (decoded (VDict d)) self
    = (Returns (jsonify (result_envelope (request_id d) result)), self) /\
    forall n,
      serve (_handle_mcp_request interp_text py_repr_container)
            (repeat (decoded (VDict d)) n) self
      = (repeat (Returns (jsonify (result_envelope (request_id d) result))) n, self).
Proof.
  intros Hm.
  assert (exists result,
             _handle_mcp_request interp_text py_repr_container (decoded (VDict d)) self
             = (Returns (jsonify (result_envelope (request_id d) result)), self))
    as [result H].
  { destruct Hm as [Hm | Hm].
    - exists (initialize_result self). now apply handle_initialize.
    - exists (tools_list_result self). now apply handle_tools_list. }
  exists result. split; [exact H|].
  induction n as [|n IH]; simpl; [reflexivity|].
  rewrite H. simpl in IH. now rewrite IH.
Qed.

Lemma initialize_and_list_are_idempotent_witness :
  exists result,
    _handle_mcp_request Scenario.wording Scenario.rendering
      (decoded (VDict [("id", VInt 1); ("method", VStr "initialize")])) Scenario.server
    = (Returns (jsonify (result_envelope (VInt 1) result)), Scenario.server) /\
    forall n,
      serve (_handle_mcp_request Scenario.wording Scenario.rendering)
            (repeat (decoded (VDict [("id", VInt 1); ("method", VStr "initialize")])) n)
            Scenario.server
      = (repeat (Returns (jsonify (result_envelope (VInt 1) result))) n,
         Scenario.server).
Proof.
  apply (initialize_and_list_are_idempotent Scenario.wording Scenario.rendering
           [("id", VInt 1); ("method", VStr "initialize")] Scenario.server).
  left. reflexivity.
Defined.

(** C8 as stated fails: a registration under the empty name stores its
    entry like any other. *)
Lemma registration_accepts_empty_name : ~ registration_checks_name.
Proof.
  intros H.
  apply (H (MCPServer_init "test" "Test server" "2.0.0") "" "Echo"
           Scenario.echo_parameters Scenario.echo); reflexivity.
Qed.

(** C8, amended. Registration checks nothing, neither the name nor the
    schema: for every call, whatever the name (the empty string included),
    the entry is stored under that name, replacing any entry the name had,
    and the other attributes of the server and the entries under other
    names are left as they were. *)
Theorem registration_stores_under_any_name
        (self : MCPServer) (tname descr : string) (parameters : pydict value)
        (func : Handler) :
  exists self',
    tool tname descr parameters func self = (Returns func, self') /\
    dict_get (tools self') tname
    = Some {| t_name := tname; t_description := descr;
              t_inputSchema :=
                VDict [("type", VStr "object");
                       ("properties",
                        dict_get_default parameters "properties" (VDict []));
                       ("required",
                        dict_get_default parameters "required" (VList []))];
              t_handler := func |} /\
    (forall other, tname <> other ->
                   dict_get (tools self') other = dict_get (tools self) other) /\
    name self' = name self /\ description self' = description self /\
    version self' = version self.
Proof.
  eexists. split; [reflexivity|]. simpl. repeat split.
  - apply dict_get_set_same.
  - intros other Hne. now apply dict_get_set_other.
Qed.

(* ================================================================= *)
(** ** The two sets of handlers *)

Lemma bind_kwargs_returns interp_text fname params kwargs env :
  bind_kwargs interp_text fname params kwargs = Returns env ->
  env = bound_params params kwargs /\ missing_params params kwargs = [].
Proof.
  unfold bind_kwargs.
  destruct (first_unexpected params kwargs); [discriminate|].
  destruct (missing_params params kwargs); [|discriminate].
  intros H. injection H as <-. auto.
Qed.

Lemma arg_required_first p rest kwargs :
  arg (bound_params ((p, None) :: rest) kwargs) p = dict_get_default kwargs p VNone.
Proof.
  unfold arg, bound_params, dict_get_default. simpl. rewrite String.eqb_refl.
  now destruct (dict_get kwargs p).
Qed.

Lemma strip_empty_short s n :
  (S n <= List.length (strip s))%nat -> truthy (VStr s) = true.
Proof.
  destruct s; simpl; [|reflexivity]. cbv. lia.
Qed.

Lemma long_enough_passes interp_text field n kwargs :
  long_enough field (S n) (VDict kwargs) ->
  dict_has kwargs field = true ->
  ServerV1.blank_or_shorter interp_text
    (dict_get_default kwargs field VNone) (S n) = Returns false.
Proof.
  intros Hl Hh. unfold dict_has in Hh. unfold dict_get_default.
  destruct (dict_get kwargs field) as [v|] eqn:E; [|discriminate].
  destruct (Hl kwargs v eq_refl E) as (s & -> & Hlen).
  unfold ServerV1.blank_or_shorter. rewrite (strip_empty_short s n Hlen).
  simpl. f_equal. apply Nat.ltb_ge. exact Hlen.
Qed.

Lemma health_advice_agree interp_text T arguments :
  long_enough "symptoms" 3 arguments ->
  call_kwargs interp_text (ServerV1.get_health_advice interp_text T) arguments
  = call_kwargs interp_text (ServerV2.get_health_advice T) arguments.
Proof.
  intros Hl. destruct arguments as [| | | | |kwargs|]; try reflexivity.
  unfold call_kwargs.
  change (h_name (ServerV1.get_health_advice interp_text T))
    with (h_name (ServerV2.get_health_advice T)).
  change (h_params (ServerV1.get_health_advice interp_text T))
    with (h_params (ServerV2.get_health_advice T)).
  destruct (bind_kwargs interp_text _ _ kwargs) as [env|e] eqn:Hb; [|reflexivity].
  apply bind_kwargs_returns in Hb as [-> Hmiss].
  simpl in Hmiss.
  destruct (dict_has kwargs "symptoms") eqn:Hs; [|discriminate].
  pose proof (long_enough_passes interp_text "symptoms" 2 kwargs Hl Hs) as Hp.
  cbn [h_body h_params ServerV1.get_health_advice ServerV2.get_health_advice].
  rewrite arg_required_first, Hp. reflexivity.
Qed.

Lemma government_service_agree interp_text T arguments :
  long_enough "service_name" 2 arguments ->
  call_kwargs interp_text (ServerV1.get_government_service_info interp_text T) arguments
  = call_kwargs interp_text (ServerV2.get_government_service_info T) arguments.
Proof.
  intros Hl. destruct arguments as [| | | | |kwargs|]; try reflexivity.
  unfold call_kwargs.
  change (h_name (ServerV1.get_government_service_info interp_text T))
    with (h_name (ServerV2.get_government_service_info T)).
  change (h_params (ServerV1.get_government_service_info interp_text T))
    with (h_params (ServerV2.get_government_service_info T)).
  destruct (bind_kwargs interp_text _ _ kwargs) as [env|e] eqn:Hb; [|reflexivity].
  apply bind_kwargs_returns in Hb as [-> Hmiss].
  simpl in Hmiss.
  destruct (dict_has kwargs "service_name") eqn:Hs; [|discriminate].
  pose proof (long_enough_passes interp_text "service_name" 1 kwargs Hl Hs) as Hp.
  cbn [h_body h_params ServerV1.get_government_service_info
         ServerV2.get_government_service_info].
  rewrite arg_required_first, Hp. reflexivity.
Qed.

Lemma dict_get_map {A B} (f : A -> B) (d : pydict A) k :
  dict_get (map (fun kv => (fst kv, f (snd kv))) d) k = option_map f (dict_get d k).
Proof.
  induction d as [|[k' v'] d IH]; simpl; [reflexivity|].
  now destruct (String.eqb k' k).
Qed.

Lemma server_v2_handlers T :
  map (fun kv => (fst kv, t_handler (snd kv))) (tools (ServerV2.server T))
  = [("get_health_advice", ServerV2.get_health_advice T);
     ("search_exercises", ServerV2.search_exercises T);
     ("find_pharmacy", ServerV2.find_pharmacy T);
     ("get_government_service_info", ServerV2.get_government_service_info T);
     ("create_cv", ServerV2.create_cv T)].
Proof. reflexivity. Qed.

(** C9 as stated fails: with collaborators that answer whatever the input,
    [get_health_advice] called with empty symptoms returns the validation
    error in [server.py] and the answer of the collaborator in
    [server_v2.py]. *)
Lemma handlers_differ_on_short_symptoms : ~ handlers_interchangeable.
Proof.
  intros H. destruct (H Scenario.wording Scenario.collaborators) as [_ H'].
  specialize (H' "get_health_advice" _ _ eq_refl eq_refl
                 (VDict [("symptoms", VStr "")])).
  vm_compute in H'. discriminate H'.
Qed.

(** C9, amended. The two server files register the same five tool names,
    and under each name the two handlers give the same outcome on all
    arguments, whatever the collaborators, provided that for
    [get_health_advice] the [symptoms] argument, when given, is a string of
    at least 3 characters once stripped, and for
    [get_government_service_info] the [service_name] argument, when given, is
    a string of at least 2 characters once stripped. *)
Theorem front_ends_agree_on_validated_arguments
        (interp_text : interp_error -> string) (T : ToolModules) :
  dict_keys (ServerV1.registered interp_text T)
  = dict_keys (tools (ServerV2.server T)) /\
  dict_keys (tools (ServerV2.server T))
  = ["get_health_advice"; "search_exercises"; "find_pharmacy";
     "get_government_service_info"; "create_cv"] /\
  forall tname h1 entry arguments,
    dict_get (ServerV1.registered interp_text T) tname = Some h1 ->
    dict_get (tools (ServerV2.server T)) tname = Some entry ->
    validated tname arguments ->
    call_kwargs interp_text h1 arguments
    = call_kwargs interp_text (t_handler entry) arguments.
Proof.
  split; [reflexivity|]. split; [reflexivity|].
  intros tname h1 entry arguments H1 H2 [Hhealth Hgov].
  apply (f_equal (option_map t_handler)) in H2.
  rewrite <- dict_get_map, server_v2_handlers in H2.
  cbn [ServerV1.registered dict_get option_map] in H1, H2.
  destruct (String.eqb "get_health_advice" tname) eqn:E1.
  { apply String.eqb_eq in E1. injection H1 as <-. injection H2 as <-.
    apply health_advice_agree. auto. }
  destruct (String.eqb "search_exercises" tname) eqn:E2.
  { injection H1 as <-. injection H2 as <-. reflexivity. }
  destruct (String.eqb "find_pharmacy" tname) eqn:E3.
  { injection H1 as <-. injection H2 as <-. reflexivity. }
  destruct (String.eqb "get_government_service_info" tname) eqn:E4.
  { apply String.eqb_eq in E4. injection H1 as <-. injection H2 as <-.
    apply government_service_agree. auto. }
  destruct (String.eqb "create_cv" tname) eqn:E5.
  { injection H1 as <-. injection H2 as <-. reflexivity. }
  discriminate.
Qed.

Lemma front_ends_agree_on_validated_arguments_witness :
  call_kwargs Scenario.wording
    (ServerV1.get_health_advice Scenario.wording Scenario.collaborators)
    (VDict [("symptoms", VStr "mal de tête")])
  = call_kwargs Scenario.wording
      (ServerV2.get_health_advice Scenario.collaborators)
      (VDict [("symptoms", VStr "mal de tête")]).
Proof.
  pose proof (fun entry =>
                proj2 (proj2 (front_ends_agree_on_validated_arguments
                                Scenario.wording Scenario.collaborators))
                      "get_health_advice"
                      (ServerV1.get_health_advice Scenario.wording Scenario.collaborators)
                      entry
                      (VDict [("symptoms", VStr "mal de tête")])
                      eq_refl) as H.
  specialize (H _ eq_refl). apply H.
  split; [|discriminate].
  intros _ kwargs v Ha Hv. injection Ha as <-.
  vm_compute in Hv. injection Hv as <-.
  exists "mal de tête". split; [reflexivity | vm_compute; lia].
Defined.

(* ================================================================= *)
(** ** Which requests get an envelope *)

Lemma result_is_one_envelope id result : one_envelope (result_envelope id result) id.
Proof. eexists. repeat split. Qed.

Lemma error_is_one_envelope id code message :
  one_envelope (error_envelope id code message) id.
Proof. eexists. repeat split. Qed.

Create HintDb envelope.
#[local] Hint Resolve result_is_one_envelope error_is_one_envelope : envelope.

Ltac answered :=
  eexists; split; [reflexivity | cbn [body jsonify]; auto with envelope].

(** A payload that is falsy, or a non-empty object that is well shaped, is
    answered with exactly one envelope that carries the id of the request,
    and the server is left as it was. *)
Lemma shaped_request_gets_one_envelope interp_text py_repr_container data self :
  (truthy data = false \/
   exists d, data = VDict d /\ d <> [] /\ well_shaped interp_text self d) ->
  exists r,
    _handle_mcp_request interp_text py_repr_container (decoded data) self = (Returns r, self) /\
    one_envelope (body r)
      (match data with VDict d => request_id d | _ => VNone end).
Proof.
  intros [Hf | (d & -> & Hne & Hw)].
  - rewrite handle_falsy by exact Hf. eexists. split; [reflexivity|].
    destruct data as [| | | | |[|kv d]|]; try discriminate Hf;
      apply error_is_one_envelope.
  - destruct (py_eq_str (request_method d) "initialize") eqn:E1.
    { destruct (request_method d) as [| | |s| | |] eqn:Hm; try discriminate E1.
      apply String.eqb_eq in E1; subst s.
      rewrite handle_initialize by exact Hm. answered. }
    destruct (py_eq_str (request_method d) "tools/list") eqn:E2.
    { destruct (request_method d) as [| | |s| | |] eqn:Hm; try discriminate E2.
      apply String.eqb_eq in E2; subst s.
      rewrite handle_tools_list by exact Hm. answered. }
    destruct (py_eq_str (request_method d) "tools/call") eqn:E3.
    2:{ rewrite handle_unknown_method by assumption.
        answered. }
    destruct (request_method d) as [| | |s| | |] eqn:Hm; try discriminate E3.
    apply String.eqb_eq in E3; subst s.
    destruct (Hw Hm) as (p & Hp & Hn).
    destruct (tool_name_of p) as [|b|n|tname|l|m|t] eqn:Hname; try contradiction;
      try (rewrite (handle_tool_not_found interp_text py_repr_container d p self Hm Hp)
            by (rewrite Hname; reflexivity);
           answered).
    destruct (dict_get (tools self) tname) as [entry|] eqn:He.
    + rewrite (handle_tool_call interp_text py_repr_container d p tname entry self
                 Hm Hp Hname He).
      destruct (call_kwargs interp_text (t_handler entry) (arguments_of p))
        as [v|e] eqn:Hc; cbn [call_response].
      * destruct (json_dumps interp_text v) as [text|e] eqn:Hj; [answered|].
        apply json_dumps_raises in Hj as [-> _]. answered.
      * unfold caught. rewrite (Hn entry e eq_refl Hc). answered.
    + rewrite (handle_tool_not_found interp_text py_repr_container d p self Hm Hp)
        by (rewrite Hname; unfold py_not_in, dict_has; now rewrite He).
      answered.
Qed.

(* ================================================================= *)
(** ** The registry under registration *)

Lemma dict_has_In_keys {A} (d : pydict A) k :
  dict_has d k = true <-> In k (dict_keys d).
Proof.
  unfold dict_has. induction d as [|[k' v'] d IH]; simpl.
  - split; [discriminate | contradiction].
  - destruct (String.eqb k' k) eqn:E.
    + apply String.eqb_eq in E. split; auto.
    + apply String.eqb_neq in E. rewrite IH. split; [auto | intros [H|H]; [contradiction | exact H]].
Qed.

Lemma dict_keys_set {A} (d : pydict A) k v :
  dict_keys (dict_set d k v)
  = if dict_has d k then dict_keys d else (dict_keys d ++ [k])%list.
Proof.
  unfold dict_has. induction d as [|[k' v'] d IH]; simpl; [reflexivity|].
  destruct (String.eqb k' k) eqn:E; simpl; [reflexivity|].
  rewrite IH. now destruct (dict_get d k).
Qed.

Lemma In_dict_set {A} (d : pydict A) k v k' v' :
  In (k', v') (dict_set d k v) -> (k' = k /\ v' = v) \/ In (k', v') d.
Proof.
  induction d as [|[k0 v0] d IH]; simpl.
  - intros [H | []]. injection H as <- <-. auto.
  - destruct (String.eqb k0 k) eqn:E; simpl.
    + apply String.eqb_eq in E. subst k0.
      intros [H | H]; [injection H as <- <-; auto | auto].
    + intros [H | H]; [auto | destruct (IH H); auto].
Qed.

Lemma dict_set_fresh {A} (d : pydict A) k v :
  dict_has d k = false -> dict_set d k v = (d ++ [(k, v)])%list.
Proof.
  unfold dict_has. induction d as [|[k' v'] d IH]; simpl; [reflexivity|].
  destruct (String.eqb k' k); [discriminate|].
  intros H. now rewrite IH.
Qed.

Lemma NoDup_snoc (l : list string) k : NoDup l -> ~ In k l -> NoDup (l ++ [k])%list.
Proof.
  induction l as [|a l IH]; simpl; intros Hn Hk.
  - constructor; [intros [] | constructor].
  - inversion Hn; subst. constructor.
    + rewrite in_app_iff. simpl. intros [H | [H | []]]; [contradiction | subst; auto].
    + apply IH; auto.
Qed.

Lemma register_ok r self : registry_ok self -> registry_ok (register r self).
Proof.
  intros [Hnd Hname]. unfold registry_ok. rewrite register_tools_eq. split.
  - rewrite dict_keys_set.
    destruct (dict_has (tools self) (r_name r)) eqn:E; [exact Hnd|].
    apply NoDup_snoc; [exact Hnd|].
    intros Hin. apply dict_has_In_keys in Hin. congruence.
  - intros k entry Hin. apply In_dict_set in Hin as [[-> ->] | Hin]; [reflexivity | eauto].
Qed.

Lemma register_all_ok rs : forall self,
  registry_ok self -> registry_ok (register_all rs self).
Proof.
  induction rs as [|r rs IH]; intros self H; simpl; [exact H|].
  apply IH, register_ok, H.
Qed.

Lemma init_ok n ds v : registry_ok (MCPServer_init n ds v).
Proof. split; [constructor | intros k e []]. Qed.

Lemma registry_names self :
  registry_ok self -> map t_name (dict_values (tools self)) = dict_keys (tools self).
Proof.
  intros [_ Hname]. unfold dict_values, dict_keys.
  induction (tools self) as [|[k e] d IH]; simpl; [reflexivity|].
  f_equal.
  - apply Hname. now left.
  - apply IH. intros k' e' Hin. apply Hname. now right.
Qed.

Lemma register_all_keys rs : forall self x,
  In x (dict_keys (tools (register_all rs self)))
  <-> In x (dict_keys (tools self)) \/ In x (map r_name rs).
Proof.
  induction rs as [|r rs IH]; intros self x; simpl.
  - tauto.
  - rewrite IH, register_tools_eq, dict_keys_set.
    destruct (dict_has (tools self) (r_name r)) eqn:E.
    + apply dict_has_In_keys in E. split; [tauto|].
      intros [H | [<- | H]]; auto.
    + rewrite in_app_iff. simpl. tauto.
Qed.

Lemma register_all_app rs1 rs2 self :
  register_all (rs1 ++ rs2)%list self = register_all rs2 (register_all rs1 self).
Proof. unfold register_all. apply fold_left_app. Qed.

Lemma register_all_distinct rs : forall self,
  NoDup (map r_name rs) ->
  (forall r, In r rs -> dict_has (tools self) (r_name r) = false) ->
  tools (register_all rs self)
  = (tools self ++ map (fun r => (r_name r, entry_of r)) rs)%list.
Proof.
  induction rs as [|r rs IH]; intros self Hnd Hfresh; simpl.
  - now rewrite app_nil_r.
  - inversion Hnd as [|? ? Hnotin Hnd']; subst.
    rewrite IH; [| exact Hnd' |].
    + rewrite register_tools_eq, dict_set_fresh by (apply Hfresh; now left).
      now rewrite <- app_assoc.
    + intros r' Hr'. rewrite register_tools_eq.
      destruct (dict_has (dict_set (tools self) (r_name r) _) (r_name r')) eqn:E;
        [|reflexivity].
      apply dict_has_In_keys in E. rewrite dict_keys_set in E.
      rewrite (Hfresh r (or_introl eq_refl)) in E.
      apply in_app_iff in E as [E | [E | []]].
      * apply dict_has_In_keys in E. rewrite Hfresh in E by (now right). discriminate.
      * exfalso. apply Hnotin. rewrite E. now apply in_map.
Qed.

(** X1. On a server built from an empty registry by any sequence of
    registrations, [tools/list] names every registered name exactly once:
    the names it lists are the keys of the registry, no name occurs twice
    however often it was registered, and a name is listed if and only if
    some registration used it. *)
Theorem listed_names_are_unique_and_exact
        (interp_text : interp_error -> string) (py_repr_container : value -> string)
        (sname sdescr sversion : string) (rs : list Registration) d :
  request_method d = VStr "tools/list" ->
  exists listing,
    _handle_mcp_request interp_text py_repr_container (decoded (VDict d))
      (register_all rs (MCPServer_init sname sdescr sversion))
    = (Returns (jsonify (result_envelope (request_id d)
                           (VDict [("tools", VList listing)]))),
       register_all rs (MCPServer_init sname sdescr sversion)) /\
    map (field "name") listing
    = map (fun n => Some (VStr n))
          (dict_keys (tools (register_all rs (MCPServer_init sname sdescr sversion)))) /\
    NoDup (dict_keys (tools (register_all rs (MCPServer_init sname sdescr sversion)))) /\
    forall x,
      In x (dict_keys (tools (register_all rs (MCPServer_init sname sdescr sversion))))
      <-> In x (map r_name rs).
Proof.
  intros Hm.
  set (self := register_all rs (MCPServer_init sname sdescr sversion)).
  assert (Hok : registry_ok self) by apply register_all_ok, init_ok.
  exists (map tool_listing (dict_values (tools self))). repeat split.
  - now apply handle_tools_list.
  - rewrite <- (registry_names self Hok), !map_map. reflexivity.
  - apply Hok.
  - unfold self. rewrite register_all_keys. simpl. tauto.
  - unfold self. rewrite register_all_keys. auto.
Qed.

Lemma listed_names_are_unique_and_exact_witness :
  exists listing,
    _handle_mcp_request Scenario.wording Scenario.rendering
      (decoded (VDict [("id", VInt 1); ("method", VStr "tools/list")]))
      (register_all [Scenario.echo_registration; Scenario.boom_registration;
                     Scenario.echo_registration]
         (MCPServer_init "test" "Test server" "2.0.0"))
    = (Returns (jsonify (result_envelope (VInt 1) (VDict [("tools", VList listing)]))),
       register_all [Scenario.echo_registration; Scenario.boom_registration;
                     Scenario.echo_registration]
         (MCPServer_init "test" "Test server" "2.0.0")) /\
    map (field "name") listing = [Some (VStr "echo"); Some (VStr "boom")].
Proof.
  destruct (listed_names_are_unique_and_exact Scenario.wording Scenario.rendering
              "test" "Test server" "2.0.0"
              [Scenario.echo_registration; Scenario.boom_registration;
               Scenario.echo_registration]
              [("id", VInt 1); ("method", VStr "tools/list")] eq_refl)
    as (listing & H & Hn & _).
  exists listing. split; [exact H | exact Hn].
Defined.

(** X2. When tools are registered under pairwise distinct names on an
    empty registry, [tools/list] returns their descriptors in registration
    order: name, description and the object schema built from the
    parameters of each registration. *)
Theorem distinct_registrations_are_listed_in_order
        (interp_text : interp_error -> string) (py_repr_container : value -> string)
        (sname sdescr sversion : string) (rs : list Registration) d :
  NoDup (map r_name rs) ->
  request_method d = VStr "tools/list" ->
  _handle_mcp_request interp_text py_repr_container (decoded (VDict d))
    (register_all rs (MCPServer_init sname sdescr sversion))
  = (Returns (jsonify (result_envelope (request_id d)
       (VDict [("tools",
                VList (map (fun r =>
                              VDict [("name", VStr (r_name r));
                                     ("description", VStr (r_description r));
                                     ("inputSchema", input_schema (r_parameters r))])
                           rs))]))),
     register_all rs (MCPServer_init sname sdescr sversion)).
Proof.
  intros Hnd Hm. rewrite handle_tools_list by exact Hm.
  unfold tools_list_result.
  rewrite (register_all_distinct rs _ Hnd) by reflexivity.
  simpl. unfold dict_values. rewrite !map_map. reflexivity.
Qed.

Lemma distinct_registrations_are_listed_in_order_witness :
  _handle_mcp_request Scenario.wording Scenario.rendering
    (decoded (VDict [("id", VInt 1); ("method", VStr "tools/list")])) Scenario.test_server
  = (Returns (jsonify (result_envelope (VInt 1)
       (VDict [("tools",
                VList [VDict [("name", VStr "echo"); ("description", VStr "Echo");
                              ("inputSchema", input_schema Scenario.echo_parameters)];
                       VDict [("name", VStr "boom"); ("description", VStr "Boom");
                              ("inputSchema", input_schema [])]])]))),
     Scenario.test_server).
Proof.
  apply (distinct_registrations_are_listed_in_order
           Scenario.wording Scenario.rendering "test" "Test server" "2.0.0"
           [Scenario.echo_registration; Scenario.boom_registration]
           [("id", VInt 1); ("method", VStr "tools/list")]).
  - repeat constructor; simpl; intuition discriminate.
  - reflexivity.
Defined.

(** X3. The last registration under a name is the one a call reaches:
    after any registrations, a registration [r], and later registrations
    under other names only, a [tools/call] of the name of [r] invokes the
    function of [r] with the arguments of the request, and is answered
    from its outcome. *)
Theorem last_registration_wins
        (interp_text : interp_error -> string) (py_repr_container : value -> string)
        self rs1 r rs2 d p :
  (forall r', In r' rs2 -> r_name r' <> r_name r) ->
  request_method d = VStr "tools/call" ->
  request_params d = VDict p ->
  tool_name_of p = VStr (r_name r) ->
  _handle_mcp_request interp_text py_repr_container (decoded (VDict d))
    (register_all (rs1 ++ r :: rs2)%list self)
  = (call_response interp_text (request_id d)
       (call_kwargs interp_text (r_func r) (arguments_of p)),
     register_all (rs1 ++ r :: rs2)%list self).
Proof.
  intros Hlater Hm Hp Hn.
  apply (handle_tool_call interp_text py_repr_container d p (r_name r) (entry_of r));
    auto.
  rewrite register_all_app. simpl.
  rewrite register_all_keeps by exact Hlater.
  rewrite register_tools_eq. apply dict_get_set_same.
Qed.

Lemma last_registration_wins_witness :
  _handle_mcp_request Scenario.wording Scenario.rendering
    (decoded (call_request (VInt 5) "echo" (VDict [("text", VStr "hi")])))
    (register_all
       [{| r_name := "echo"; r_description := "Boom"; r_parameters := [];
           r_func := Scenario.boom |};
        Scenario.echo_registration; Scenario.boom_registration]
       (MCPServer_init "test" "Test server" "2.0.0"))
  = (Returns (jsonify (result_envelope (VInt 5)
                         (text_content (String dquote ("hi" ++ String dquote ""))))),
     register_all
       [{| r_name := "echo"; r_description := "Boom"; r_parameters := [];
           r_func := Scenario.boom |};
        Scenario.echo_registration; Scenario.boom_registration]
       (MCPServer_init "test" "Test server" "2.0.0")).
Proof.
  apply (last_registration_wins Scenario.wording Scenario.rendering
           (MCPServer_init "test" "Test server" "2.0.0")
           [{| r_name := "echo"; r_description := "Boom"; r_parameters := [];
               r_func := Scenario.boom |}]
           Scenario.echo_registration [Scenario.boom_registration]
           [("jsonrpc", VStr "2.0"); ("id", VInt 5); ("method", VStr "tools/call");
            ("params", VDict [("name", VStr "echo");
                              ("arguments", VDict [("text", VStr "hi")])])]
           [("name", VStr "echo"); ("arguments", VDict [("text", VStr "hi")])]);
    try reflexivity.
  intros r' [<- | []]. discriminate.
Defined.

(** X4. A registration under a name the registry already has replaces the
    entry where it stands: the names and their order are unchanged, and so
    is the tool count that [/health] reports.  Under a new name the entry
    goes last and the count grows by one. *)
Theorem registration_appends_or_replaces
        (self : MCPServer) (tname descr : string) (parameters : pydict value)
        (func : Handler) :
  dict_keys (tools (snd (tool tname descr parameters func self)))
  = (if dict_has (tools self) tname
     then dict_keys (tools self)
     else (dict_keys (tools self) ++ [tname])%list) /\
  fst (health (snd (tool tname descr parameters func self)))
  = Returns (jsonify (VDict [
      ("status", VStr "ok");
      ("server", VStr (name self));
      ("version", VStr (version self));
      ("tools_count",
       VInt (if dict_has (tools self) tname
             then Z.of_nat (List.length (tools self))
             else Z.of_nat (List.length (tools self)) + 1))])).
Proof.
  assert (Hk : dict_keys (tools (snd (tool tname descr parameters func self)))
               = (if dict_has (tools self) tname
                  then dict_keys (tools self)
                  else (dict_keys (tools self) ++ [tname])%list))
    by apply dict_keys_set.
  split; [exact Hk|].
  apply (f_equal (@List.length string)) in Hk.
  unfold dict_keys in Hk. rewrite length_map in Hk.
  unfold health, bind, get_self, ret, py_len. cbn [fst snd].
  change (name (snd (tool tname descr parameters func self))) with (name self).
  change (version (snd (tool tname descr parameters func self))) with (version self).
  rewrite Hk.
  destruct (dict_has (tools self) tname).
  - now rewrite length_map.
  - rewrite length_app, length_map, Nat2Z.inj_add. reflexivity.
Qed.

(** X5. The diagnostic routes and the protocol agree on the registry: the
    [tools_count] of [/health] and of [/], the [count] of [/tools], the
    length of the list of [/tools] and the number of descriptors of
    [tools/list] are one number, [/tools] shows the names and descriptions
    of [tools/list] in the same order, and none of the routes changes the
    server. *)
Theorem diagnostic_routes_agree_with_tools_list
        (interp_text : interp_error -> string) (py_repr_container : value -> string)
        (self : MCPServer) d :
  request_method d = VStr "tools/list" ->
  exists (listing briefs : list value) (n : nat),
    _handle_mcp_request interp_text py_repr_container (decoded (VDict d)) self
    = (Returns (jsonify (result_envelope (request_id d)
                           (VDict [("tools", VList listing)]))), self) /\
    list_tools self
    = (Returns (jsonify (VDict [("tools", VList briefs);
                                ("count", VInt (Z.of_nat n))])), self) /\
    health self
    = (Returns (jsonify (VDict [("status", VStr "ok");
                                ("server", VStr (name self));
                                ("version", VStr (version self));
                                ("tools_count", VInt (Z.of_nat n))])), self) /\
    index self
    = (Returns (jsonify (VDict [
         ("name", VStr (name self));
         ("description", VStr (description self));
         ("version", VStr (version self));
         ("endpoints", VDict [("mcp", VStr "/mcp (POST)");
                              ("health", VStr "/health");
                              ("tools", VStr "/tools")]);
         ("tools_count", VInt (Z.of_nat n))])), self) /\
    List.length listing = n /\ List.length briefs = n /\
    map (field "name") briefs = map (field "name") listing /\
    map (field "description") briefs = map (field "description") listing.
Proof.
  intros Hm.
  exists (map tool_listing (dict_values (tools self))),
         (map (fun t => VDict [("name", VStr (t_name t));
                               ("description", VStr (t_description t))])
              (dict_values (tools self))),
         (List.length (tools self)).
  repeat split.
  - now apply handle_tools_list.
  - unfold list_tools, bind, get_self, ret, py_len, dict_values.
    now rewrite !length_map.
  - unfold dict_values. now rewrite !length_map.
  - unfold dict_values. now rewrite !length_map.
  - now rewrite !map_map.
  - now rewrite !map_map.
Qed.

Lemma diagnostic_routes_agree_with_tools_list_witness :
  exists (listing briefs : list value),
    _handle_mcp_request Scenario.wording Scenario.rendering
      (decoded (VDict [("id", VInt 1); ("method", VStr "tools/list")])) Scenario.server
    = (Returns (jsonify (result_envelope (VInt 1) (VDict [("tools", VList listing)]))),
       Scenario.server) /\
    list_tools Scenario.server
    = (Returns (jsonify (VDict [("tools", VList briefs); ("count", VInt 5)])),
       Scenario.server) /\
    List.length listing = 5%nat /\
    map (field "name") briefs = map (field "name") listing.
Proof.
  destruct (diagnostic_routes_agree_with_tools_list
              Scenario.wording Scenario.rendering Scenario.server
              [("id", VInt 1); ("method", VStr "tools/list")] eq_refl)
    as (listing & briefs & n & H1 & H2 & _ & _ & Hl & _ & Hn & _).
  exists listing, briefs.
  assert (En : n = 5%nat).
  { rewrite <- Hl.
    injection H1 as <-. reflexivity. }
  subst n. rewrite En in H2. repeat split; assumption.
Defined.

(* ================================================================= *)
(** ** When the dispatcher answers and when it raises *)

Ltac answers Hans :=
  cbn [call_response fst snd]; split; [reflexivity | apply Hans; auto with envelope].

Lemma handle_cases interp_text py_repr_container data self :
  snd (_handle_mcp_request interp_text py_repr_container (decoded data) self) = self /\
  match fst (_handle_mcp_request interp_text py_repr_container (decoded data) self) with
  | Returns r =>
      (truthy data = false /\ r = parse_error_response) \/
      (exists d, data = VDict d /\ d <> [] /\ status r = 200%Z /\
                 one_envelope (body r) (request_id d))
  | Raises e => document_escapes interp_text self data e
  end.
Proof.
  destruct (truthy data) eqn:Ht.
  2:{ rewrite handle_falsy by exact Ht. simpl. auto. }
  destruct data as [| | | | |d|];
    try (rewrite handle_not_object by (auto; discriminate); simpl; split; auto;
         left; repeat split; auto; discriminate).
  assert (Hne : d <> []) by (intros ->; discriminate Ht).
  assert (Hans : forall (P : Prop) doc,
             one_envelope doc (request_id d) ->
             P \/
             (exists d0, VDict d = VDict d0 /\ d0 <> [] /\ status (jsonify doc) = 200%Z /\
                         one_envelope (body (jsonify doc)) (request_id d0)))
    by (intros P doc Hdoc; right; exists d; auto).
  destruct (py_eq_str (request_method d) "initialize") eqn:E1.
  { destruct (request_method d) as [| | |s| | |] eqn:Hm; try discriminate E1.
    apply String.eqb_eq in E1; subst s.
    rewrite handle_initialize by exact Hm. answers Hans. }
  destruct (py_eq_str (request_method d) "tools/list") eqn:E2.
  { destruct (request_method d) as [| | |s| | |] eqn:Hm; try discriminate E2.
    apply String.eqb_eq in E2; subst s.
    rewrite handle_tools_list by exact Hm. answers Hans. }
  destruct (py_eq_str (request_method d) "tools/call") eqn:E3.
  2:{ rewrite handle_unknown_method by assumption. answers Hans. }
  destruct (request_method d) as [| | |s| | |] eqn:Hm; try discriminate E3.
  apply String.eqb_eq in E3; subst s.
  destruct (request_params d) as [| | | | |p|] eqn:Hp;
    try (rewrite (handle_call_params_not_object interp_text py_repr_container d self Hm)
          by (rewrite Hp; discriminate);
         rewrite Hp; simpl; split; auto;
         right; exists d; repeat split; auto;
         left; rewrite Hp; split; [discriminate | reflexivity]).
  destruct (tool_name_of p) as [|b|n|tname|l|m|t] eqn:Hname;
    try (rewrite (handle_tool_not_found interp_text py_repr_container d p self Hm Hp)
          by (rewrite Hname; reflexivity);
         answers Hans).
  - destruct (dict_get (tools self) tname) as [entry|] eqn:He.
    + rewrite (handle_tool_call interp_text py_repr_container d p tname entry self
                 Hm Hp Hname He).
      destruct (call_kwargs interp_text (t_handler entry) (arguments_of p))
        as [v|e] eqn:Hc; cbn [call_response].
      { destruct (json_dumps interp_text v) as [text|e] eqn:Hj; [answers Hans|].
        apply json_dumps_raises in Hj as [-> _]. answers Hans. }
      unfold caught.
      destruct (exc_is_Exception e) eqn:Hx; [answers Hans|].
      cbn [fst snd]. split; [reflexivity|].
      right. exists d. repeat split; auto.
      right. exists p. split; [exact Hp|].
      right. exists tname, entry. rewrite Hname. auto.
    + rewrite (handle_tool_not_found interp_text py_repr_container d p self Hm Hp)
        by (rewrite Hname; unfold py_not_in, dict_has; now rewrite He).
      answers Hans.
  - rewrite (handle_call_name_unhashable interp_text py_repr_container d p self Hm Hp)
      by (left; eauto).
    simpl. split; [reflexivity|].
    right. exists d. repeat split; auto.
    right. exists p. split; [exact Hp|]. left. rewrite Hname. split; eauto.
  - rewrite (handle_call_name_unhashable interp_text py_repr_container d p self Hm Hp)
      by (right; eauto).
    simpl. split; [reflexivity|].
    right. exists d. repeat split; auto.
    right. exists p. split; [exact Hp|]. left. rewrite Hname. split; eauto.
Qed.

Lemma handle_decoded interp_text py_repr_container request data self :
  get_json interp_text request = Returns data ->
  _handle_mcp_request interp_text py_repr_container request self
  = _handle_mcp_request interp_text py_repr_container (decoded data) self.
Proof.
  destruct request as [[|] [doc|]]; unfold get_json; cbn [is_json json_body];
    intros H; try discriminate H.
  injection H as ->. reflexivity.
Qed.

Lemma handle_get_json_raises interp_text py_repr_container request e self :
  get_json interp_text request = Raises e ->
  _handle_mcp_request interp_text py_repr_container request self = (Raises e, self).
Proof.
  intros H. unfold _handle_mcp_request.
  unfold bind at 1. unfold lift at 1. now rewrite H.
Qed.

Lemma get_json_cases interp_text request :
  (exists data, get_json interp_text request = Returns data) \/
  (is_json request = false /\
   get_json interp_text request = Raises (interp_exc interp_text NotJsonContentType)) \/
  (is_json request = true /\ json_body request = None /\
   get_json interp_text request = Raises (interp_exc interp_text JsonLoadingFailed)).
Proof.
  destruct request as [[|] [doc|]]; unfold get_json; cbn [is_json json_body]; eauto 6.
Qed.

Lemma request_cases interp_text py_repr_container request self :
  snd (_handle_mcp_request interp_text py_repr_container request self) = self /\
  match fst (_handle_mcp_request interp_text py_repr_container request self) with
  | Returns r =>
      exists data,
        get_json interp_text request = Returns data /\
        ((truthy data = false /\ r = parse_error_response) \/
         (exists d, data = VDict d /\ d <> [] /\ status r = 200%Z /\
                    one_envelope (body r) (request_id d)))
  | Raises e => escapes interp_text self request e
  end.
Proof.
  destruct (get_json_cases interp_text request)
    as [(data & Hg) | [(Hj & Hg) | (Hj & Hb & Hg)]].
  - rewrite (handle_decoded interp_text py_repr_container request data self Hg).
    pose proof (handle_cases interp_text py_repr_container data self) as [Hs Hc].
    split; [exact Hs|].
    destruct (fst (_handle_mcp_request interp_text py_repr_container (decoded data) self))
      as [r|e].
    + exists data. split; [exact Hg | exact Hc].
    + right. right. exists data. split; [exact Hg | exact Hc].
  - rewrite (handle_get_json_raises interp_text py_repr_container request _ self Hg).
    cbn [fst snd]. split; [reflexivity|]. left. auto.
  - rewrite (handle_get_json_raises interp_text py_repr_container request _ self Hg).
    cbn [fst snd]. split; [reflexivity|]. right. left. auto.
Qed.

Lemma document_escapes_raises interp_text py_repr_container data self e :
  document_escapes interp_text self data e ->
  fst (_handle_mcp_request interp_text py_repr_container (decoded data) self) = Raises e.
Proof.
  intros [(Ht & Hd & ->) | (d & -> & Hm & Hrest)].
  - now rewrite handle_not_object.
  - destruct Hrest as [(Hp & ->) | (p & Hp & Hrest)].
    + now rewrite handle_call_params_not_object.
    + destruct Hrest as [(Hn & ->) | (tname & entry & Hn & He & Hc & Hx)].
      * now rewrite (handle_call_name_unhashable interp_text py_repr_container
                       d p self Hm Hp Hn).
      * rewrite (handle_tool_call interp_text py_repr_container d p tname entry self
                   Hm Hp Hn He).
        rewrite Hc. cbn [call_response]. unfold caught. now rewrite Hx.
Qed.

(** X6. The dispatcher raises exactly in six situations, and raises
    nothing else: when [request.get_json()] raises, on a content type that
    is not JSON ([UnsupportedMediaType]) or on a body that does not decode
    ([BadRequest]); on a truthy document that is not an object
    ([AttributeError] from [data.get]); on a [tools/call] whose [params] is
    not an object ([AttributeError] from [params.get]); on a [tools/call]
    whose name is a list or a dict ([TypeError] from the membership test);
    and when the handler of a registered tool raises something that is not
    an instance of [Exception], which passes through the [except] clause
    unchanged.  Every other request is answered; in particular a result
    that [json.dumps] refuses is answered with -32603. *)
Theorem dispatcher_raises_exactly_when
        (interp_text : interp_error -> string) (py_repr_container : value -> string)
        (request : Request) (self : MCPServer) (e : PyExc) :
  fst (_handle_mcp_request interp_text py_repr_container request self) = Raises e
  <-> escapes interp_text self request e.
Proof.
  split.
  - intros H.
    pose proof (request_cases interp_text py_repr_container request self) as [_ Hc].
    now rewrite H in Hc.
  - intros [(Hj & ->) | [(Hj & Hb & ->) | (data & Hg & Hd)]].
    + rewrite (handle_get_json_raises interp_text py_repr_container request
                 (interp_exc interp_text NotJsonContentType) self); [reflexivity|].
      unfold get_json. now rewrite Hj.
    + rewrite (handle_get_json_raises interp_text py_repr_container request
                 (interp_exc interp_text JsonLoadingFailed) self); [reflexivity|].
      unfold get_json. now rewrite Hj, Hb.
    + rewrite (handle_decoded interp_text py_repr_container request data self Hg).
      now apply document_escapes_raises.
Qed.

Lemma dispatcher_raises_exactly_when_witness :
  fst (_handle_mcp_request Scenario.wording Scenario.rendering
         (decoded (call_request (VInt 9) "bye" (VDict [])))
         (register {| r_name := "bye"; r_description := "Bye"; r_parameters := [];
                      r_func := bye |}
            Scenario.test_server))
  = Raises {| exc_class := "SystemExit"; exc_is_Exception := false; exc_str := "bye" |}.
Proof.
  apply (proj2 (dispatcher_raises_exactly_when Scenario.wording Scenario.rendering
                  (decoded (call_request (VInt 9) "bye" (VDict [])))
                  (register {| r_name := "bye"; r_description := "Bye";
                               r_parameters := []; r_func := bye |}
                     Scenario.test_server)
                  {| exc_class := "SystemExit"; exc_is_Exception := false;
                     exc_str := "bye" |})).
  right. right. eexists. split; [reflexivity|].
  right. eexists. split; [reflexivity|]. split; [reflexivity|].
  right. eexists. split; [reflexivity|].
  right. exists "bye". eexists. repeat split; reflexivity.
Defined.

(** X7. Whenever the dispatcher answers, the server is unchanged, the
    answer is a single envelope (a result or an error, not both) that
    carries the id of the request, null when the document was falsy, and
    the HTTP status is 400 for the Parse Error and 200 for every other
    answer, the error envelopes -32601 and -32603 included. *)
Theorem answers_are_envelopes_with_status
        (interp_text : interp_error -> string) (py_repr_container : value -> string)
        (data : value) (self self' : MCPServer) (r : Response) :
  _handle_mcp_request interp_text py_repr_container (decoded data) self = (Returns r, self') ->
  self' = self /\
  one_envelope (body r) (match data with VDict d => request_id d | _ => VNone end) /\
  ((truthy data = false /\ status r = 400%Z /\
    field "error" (body r)
    = Some (VDict [("code", VInt (-32700)); ("message", VStr "Parse error")]))
   \/ (truthy data = true /\ status r = 200%Z)).
Proof.
  intros H.
  pose proof (handle_cases interp_text py_repr_container data self) as [Hs Hc].
  rewrite H in Hs, Hc. cbn [fst snd] in Hs, Hc. split; [exact Hs|].
  destruct Hc as [(Ht & ->) | (d & -> & Hne & Hst & Henv)].
  - split.
    + destruct data as [| | | | |[|kv d]|]; try discriminate Ht;
        apply error_is_one_envelope.
    + left. repeat split. exact Ht.
  - split; [exact Henv|]. right. split; [now apply truthy_dict | exact Hst].
Qed.

Lemma answers_are_envelopes_with_status_witness :
  one_envelope
    (error_envelope (VInt 3) (-32601) "Tool not found: missing") (VInt 3) /\
  status (jsonify (error_envelope (VInt 3) (-32601) "Tool not found: missing")) = 200%Z.
Proof.
  destruct (answers_are_envelopes_with_status Scenario.wording Scenario.rendering
              (call_request (VInt 3) "missing" (VDict []))
              Scenario.server Scenario.server
              (jsonify (error_envelope (VInt 3) (-32601) "Tool not found: missing"))
              eq_refl)
    as (_ & Henv & [(Ht & _) | (_ & Hst)]).
  - discriminate Ht.
  - split; [exact Henv | exact Hst].
Defined.

(** X8. Requests are independent: served one after the other, each
    request gets the outcome it would get alone on the initial server, and
    the server at the end is the initial one.  No request, answered or not,
    leaves a trace for the next. *)
Theorem requests_are_independent
        (interp_text : interp_error -> string) (py_repr_container : value -> string)
        (requests : list Request) (self : MCPServer) :
  serve (_handle_mcp_request interp_text py_repr_container) requests self
  = (map (fun request =>
            fst (_handle_mcp_request interp_text py_repr_container request self))
         requests,
     self).
Proof.
  induction requests as [|request rest IH]; simpl; [reflexivity|].
  pose proof (request_cases interp_text py_repr_container request self) as [Hs _].
  destruct (_handle_mcp_request interp_text py_repr_container request self) as [o s'].
  cbn [fst snd] in *. subst s'. now rewrite IH.
Qed.

(* ================================================================= *)
(** ** Arguments, defaults and schemas *)

Lemma first_unexpected_none params kwargs :
  first_unexpected params kwargs = None
  <-> forall k, In k (dict_keys kwargs) -> dict_has params k = true.
Proof.
  induction kwargs as [|[k0 v0] kwargs IH]; simpl.
  - split; [intros _ k [] | reflexivity].
  - destruct (dict_has params k0) eqn:E.
    + rewrite IH. split; [intros H k [<- | Hk]; auto | intros H k Hk; auto].
    + split; [discriminate|]. intros H. specialize (H k0 (or_introl eq_refl)). congruence.
Qed.

Lemma missing_params_none params kwargs :
  missing_params params kwargs = []
  <-> forall q, In (q, None) params -> dict_has kwargs q = true.
Proof.
  induction params as [|[p0 [dflt|]] params IH]; simpl.
  - split; [intros _ q [] | reflexivity].
  - rewrite IH. split.
    + intros H q [Hq | Hq]; [discriminate | auto].
    + intros H q Hq. auto.
  - destruct (dict_has kwargs p0) eqn:E.
    + rewrite IH. split.
      * intros H q [Hq | Hq]; [injection Hq as <-; exact E | auto].
      * intros H q Hq. auto.
    + split; [discriminate|]. intros H.
      specialize (H p0 (or_introl eq_refl)). congruence.
Qed.

Lemma binds_bind interp_text fname params kwargs :
  binds params kwargs ->
  bind_kwargs interp_text fname params kwargs = Returns (bound_params params kwargs).
Proof.
  intros [Hk Hq]. unfold bind_kwargs.
  rewrite (proj2 (first_unexpected_none params kwargs) Hk).
  now rewrite (proj2 (missing_params_none params kwargs) Hq).
Qed.

(** X9. The keyword arguments of a call bind exactly when every keyword
    names a parameter and every parameter without default is given; then
    the body runs on the bound parameters.  Otherwise the call raises a
    [TypeError] and the body does not run. *)
Theorem binding_succeeds_exactly_when
        (interp_text : interp_error -> string) (h : Handler) (kwargs : pydict value) :
  (binds (h_params h) kwargs ->
   call_kwargs interp_text h (VDict kwargs)
   = h_body h (bound_params (h_params h) kwargs)) /\
  (~ binds (h_params h) kwargs ->
   exists k, interp_class k = "TypeError" /\
             call_kwargs interp_text h (VDict kwargs)
             = Raises (interp_exc interp_text k)).
Proof.
  split.
  - intros Hb. unfold call_kwargs. now rewrite binds_bind.
  - intros Hnb. unfold call_kwargs, bind_kwargs.
    destruct (first_unexpected (h_params h) kwargs) as [k|] eqn:Hu.
    { exists (UnexpectedKeyword (h_name h) k). split; reflexivity. }
    destruct (missing_params (h_params h) kwargs) as [|m ms] eqn:Hmiss.
    { exfalso. apply Hnb. split.
      - now apply first_unexpected_none.
      - now apply missing_params_none. }
    exists (MissingArguments (h_name h) (m :: ms)). split; reflexivity.
Qed.

Lemma binding_succeeds_exactly_when_witness :
  call_kwargs Scenario.wording (ServerV2.find_pharmacy Scenario.collaborators)
    (VDict [("city", VStr "Banfora")])
  = Returns (VDict [("status", VStr "success");
                    ("input", VDict [("city", VStr "Banfora");
                                     ("emergency", VBool false)])]).
Proof.
  apply (proj1 (binding_succeeds_exactly_when Scenario.wording
                  (ServerV2.find_pharmacy Scenario.collaborators)
                  [("city", VStr "Banfora")])).
  split.
  - intros k [<- | []]. reflexivity.
  - intros q [H | [H | []]]; discriminate H.
Defined.

Lemma required_params_In params q :
  In (q, None) params -> In q (required_params params).
Proof.
  intros H. unfold required_params.
  change q with (fst (q, @None value)). apply in_map.
  apply filter_In. split; [exact H | reflexivity].
Qed.

Lemma matching_schema_binds entry kwargs :
  schema_matches_signature entry = true ->
  conforms (t_inputSchema entry) kwargs ->
  binds (h_params (t_handler entry)) kwargs.
Proof.
  unfold schema_matches_signature.
  intros Hs (props & required & Hp & Hr & Hkeys & Hreq).
  rewrite Hp, Hr in Hs.
  destruct (list_eq_dec string_dec (dict_keys props)
                        (map fst (h_params (t_handler entry)))) as [E1|]; [|discriminate].
  destruct (list_eq_dec string_dec (strings_of required)
                        (required_params (h_params (t_handler entry)))) as [E2|];
    [|discriminate].
  split.
  - intros k Hk. apply dict_has_In_keys. unfold dict_keys at 1. rewrite <- E1. auto.
  - intros q Hq. apply Hreq. rewrite E2. now apply required_params_In.
Qed.

Lemma server_v2_schemas_match T :
  forallb schema_matches_signature (dict_values (tools (ServerV2.server T))) = true.
Proof. reflexivity. Qed.

Lemma server_v2_forwards T tname entry env :
  dict_get (tools (ServerV2.server T)) tname = Some entry ->
  (exists kwargs, env = bound_params (h_params (t_handler entry)) kwargs) ->
  h_body (t_handler entry) env = collaborator_call T tname env.
Proof.
  intros H2 [kwargs ->].
  apply (f_equal (option_map t_handler)) in H2.
  rewrite <- dict_get_map, server_v2_handlers in H2.
  cbn [dict_get option_map] in H2.
  destruct (String.eqb "get_health_advice" tname) eqn:E1.
  { apply String.eqb_eq in E1. subst tname. injection H2 as <-. reflexivity. }
  destruct (String.eqb "search_exercises" tname) eqn:E2.
  { apply String.eqb_eq in E2. subst tname. injection H2 as <-. reflexivity. }
  destruct (String.eqb "find_pharmacy" tname) eqn:E3.
  { apply String.eqb_eq in E3. subst tname. injection H2 as <-. reflexivity. }
  destruct (String.eqb "get_government_service_info" tname) eqn:E4.
  { apply String.eqb_eq in E4. subst tname. injection H2 as <-. reflexivity. }
  destruct (String.eqb "create_cv" tname) eqn:E5.
  { apply String.eqb_eq in E5. subst tname. injection H2 as <-. reflexivity. }
  discriminate.
Qed.

(** X11. In [server_v2.py] the schema advertised for each of the five
    tools matches the signature of its handler, so arguments that follow
    the advertised schema (only advertised properties, every required one
    given) always bind: such a call never fails with the [TypeError] of an
    unexpected or missing argument. *)
Theorem advertised_schema_arguments_bind
        (interp_text : interp_error -> string) (T : ToolModules)
        (tname : string) (entry : ToolEntry) (kwargs : pydict value) :
  dict_get (tools (ServerV2.server T)) tname = Some entry ->
  conforms (t_inputSchema entry) kwargs ->
  binds (h_params (t_handler entry)) kwargs /\
  call_kwargs interp_text (t_handler entry) (VDict kwargs)
  = h_body (t_handler entry) (bound_params (h_params (t_handler entry)) kwargs).
Proof.
  intros He Hc.
  assert (Hb : binds (h_params (t_handler entry)) kwargs).
  { apply matching_schema_binds; [|exact Hc].
    pose proof (server_v2_schemas_match T) as Hall.
    rewrite forallb_forall in Hall. apply Hall.
    now apply dict_get_In with (k := tname). }
  split; [exact Hb|].
  unfold call_kwargs. now rewrite binds_bind.
Qed.

Lemma advertised_schema_arguments_bind_witness :
  call_kwargs Scenario.wording
    (ServerV2.get_government_service_info Scenario.collaborators)
    (VDict [("service_name", VStr "Passeport")])
  = Returns (VDict [("status", VStr "success");
                    ("input", VDict [("service_name", VStr "Passeport")])]).
Proof.
  pose proof (fun entry He Hc =>
                proj2 (advertised_schema_arguments_bind
                         Scenario.wording Scenario.collaborators
                         "get_government_service_info" entry
                         [("service_name", VStr "Passeport")] He Hc)) as H.
  specialize (H _ eq_refl). apply H.
  exists [("service_name",
           property "string" "Nom du service (ex: 'Passeport', 'CNIB', 'Permis')")],
         [VStr "service_name"].
  repeat split.
  - intros k [<- | []]. left. reflexivity.
  - intros q [<- | []]. reflexivity.
Defined.

(** X12. End to end on [server_v2.py]: a [tools/call] that names one of the
    five tools with arguments that follow its advertised schema calls the
    collaborator entry point behind that tool on the bound parameters, and
    the answer follows from what the entry point does and nothing else.
    When it returns a value that [json.dumps] takes, the answer is the
    result envelope with the text of that value (read back, the text gives
    the value); when [json.dumps] raises on the value, the -32603 envelope
    with the text of that exception; when the entry point raises an
    [Exception], the -32603 envelope with its text; what it raises outside
    [Exception] passes through. *)
Theorem server_v2_call_reaches_collaborator
        (interp_text : interp_error -> string) (py_repr_container : value -> string)
        (T : ToolModules) d p tname entry kwargs :
  request_method d = VStr "tools/call" ->
  request_params d = VDict p ->
  tool_name_of p = VStr tname ->
  dict_get (tools (ServerV2.server T)) tname = Some entry ->
  arguments_of p = VDict kwargs ->
  conforms (t_inputSchema entry) kwargs ->
  call_kwargs interp_text (t_handler entry) (arguments_of p)
  = collaborator_call T tname (bound_params (h_params (t_handler entry)) kwargs)
  /\
  (forall v text,
      collaborator_call T tname (bound_params (h_params (t_handler entry)) kwargs)
      = Returns v ->
      json_dumps interp_text v = Returns text ->
      _handle_mcp_request interp_text py_repr_container (decoded (VDict d))
        (ServerV2.server T)
      = (Returns (jsonify (result_envelope (request_id d) (text_content text))),
         ServerV2.server T) /\
      json_loads text = Some (as_json v))
  /\
  (forall v e,
      collaborator_call T tname (bound_params (h_params (t_handler entry)) kwargs)
      = Returns v ->
      json_dumps interp_text v = Raises e ->
      _handle_mcp_request interp_text py_repr_container (decoded (VDict d))
        (ServerV2.server T)
      = (Returns (jsonify (error_envelope (request_id d) (-32603) (exc_str e))),
         ServerV2.server T))
  /\
  (forall e,
      collaborator_call T tname (bound_params (h_params (t_handler entry)) kwargs)
      = Raises e ->
      _handle_mcp_request interp_text py_repr_container (decoded (VDict d))
        (ServerV2.server T)
      = (if exc_is_Exception e
         then Returns (jsonify (error_envelope (request_id d) (-32603) (exc_str e)))
         else Raises e,
         ServerV2.server T)).
Proof.
  intros Hm Hp Hn He Ha Hc.
  assert (Hcall : call_kwargs interp_text (t_handler entry) (arguments_of p)
                  = collaborator_call T tname
                      (bound_params (h_params (t_handler entry)) kwargs)).
  { rewrite Ha. unfold call_kwargs. rewrite binds_bind.
    - now rewrite (server_v2_forwards T tname entry _ He) by eauto.
    - apply matching_schema_binds; [|exact Hc].
      pose proof (server_v2_schemas_match T) as Hall.
      rewrite forallb_forall in Hall. apply Hall.
      now apply dict_get_In with (k := tname). }
  split; [exact Hcall|].
  rewrite (handle_tool_call interp_text py_repr_container d p tname entry _ Hm Hp Hn He).
  rewrite Hcall. split; [|split].
  - intros v text Hv Hj. rewrite Hv. cbn [call_response]. rewrite Hj.
    split; [reflexivity|].
    apply json_dumps_returns in Hj. subst text. apply json_loads_encode.
  - intros v e Hv Hj. rewrite Hv. cbn [call_response]. rewrite Hj.
    apply json_dumps_raises in Hj as [-> _]. reflexivity.
  - intros e Hv. rewrite Hv. cbn [call_response]. unfold caught.
    now destruct (exc_is_Exception e).
Qed.

Lemma server_v2_call_reaches_collaborator_witness :
  exists text,
    _handle_mcp_request Scenario.wording Scenario.rendering
      (decoded (call_request (VInt 11) "find_pharmacy"
                  (VDict [("emergency", VBool true)])))
      Scenario.server
    = (Returns (jsonify (result_envelope (VInt 11) (text_content text))),
       Scenario.server) /\
    json_loads text
    = Some (VDict [("status", VStr "success");
                   ("input", VDict [("city", VStr "Ouagadougou");
                                    ("emergency", VBool true)])]).
Proof.
  pose proof (fun entry He Hc =>
                proj1 (proj2 (server_v2_call_reaches_collaborator
                  Scenario.wording Scenario.rendering Scenario.collaborators
                  [("jsonrpc", VStr "2.0"); ("id", VInt 11);
                   ("method", VStr "tools/call");
                   ("params", VDict [("name", VStr "find_pharmacy");
                                     ("arguments", VDict [("emergency", VBool true)])])]
                  [("name", VStr "find_pharmacy");
                   ("arguments", VDict [("emergency", VBool true)])]
                  "find_pharmacy" entry [("emergency", VBool true)]
                  eq_refl eq_refl eq_refl He eq_refl Hc))) as H.
  specialize (H _ eq_refl).
  match type of H with ?C -> _ => assert (Hc : C) end.
  { exists [("city", property "string" "Ville du Burkina (défaut: Ouagadougou)");
            ("emergency",
             property "boolean" "Si true, inclut aussi les numéros d'urgence")],
           [].
    repeat split.
    - intros k [<- | []]. right. left. reflexivity.
    - intros q []. }
  eexists. exact (H Hc _ _ eq_refl eq_refl).
Defined.

(* ================================================================= *)
(** ** Edges of a [tools/call] *)

(** X13. When the [arguments] of a [tools/call] of a registered tool are
    not an object (a list, a string, a number, null), the [**] of the call
    raises a [TypeError] inside the [try] block: the request is answered
    with the -32603 envelope and the body of the handler does not run.
    (A [params] that is not an object is different: it is read outside the
    [try] block.) *)
Theorem non_mapping_arguments_become_internal_error
        (interp_text : interp_error -> string) (py_repr_container : value -> string)
        d p tname entry self :
  request_method d = VStr "tools/call" ->
  request_params d = VDict p ->
  tool_name_of p = VStr tname ->
  dict_get (tools self) tname = Some entry ->
  (forall kwargs, arguments_of p <> VDict kwargs) ->
  _handle_mcp_request interp_text py_repr_container (decoded (VDict d)) self
  = (Returns (jsonify (error_envelope (request_id d) (-32603)
        (interp_text (NotAMapping (h_name (t_handler entry))
                                  (type_name (arguments_of p)))))),
     self).
Proof.
  intros Hm Hp Hn He Ha.
  rewrite (handle_tool_call interp_text py_repr_container d p tname entry self
             Hm Hp Hn He).
  destruct (arguments_of p) as [| | | | |kwargs|]; try reflexivity.
  now elim (Ha kwargs).
Qed.

Lemma non_mapping_arguments_become_internal_error_witness :
  _handle_mcp_request Scenario.wording Scenario.rendering
    (decoded (call_request (VInt 2) "echo" VNone)) Scenario.test_server
  = (Returns (jsonify (error_envelope (VInt 2) (-32603)
       "echo() argument after ** must be a mapping, not NoneType")),
     Scenario.test_server).
Proof.
  pose proof (fun entry He =>
                non_mapping_arguments_become_internal_error
                  Scenario.wording Scenario.rendering
                  [("jsonrpc", VStr "2.0"); ("id", VInt 2);
                   ("method", VStr "tools/call");
                   ("params", VDict [("name", VStr "echo"); ("arguments", VNone)])]
                  [("name", VStr "echo"); ("arguments", VNone)]
                  "echo" entry Scenario.test_server
                  eq_refl eq_refl eq_refl He) as H.
  specialize (H _ eq_refl). apply H.
  intros kwargs. discriminate.
Defined.

(** X14. Fields that a request leaves out take the defaults of the three
    [get] calls.  A [tools/call] without [params], or whose [params] has no
    [name], looks up [None] and is answered "Tool not found: None" with
    code -32601; a [tools/call] of a registered tool without [arguments]
    calls the handler with no keyword at all; and a request without [id] is
    answered with id null. *)
Theorem absent_fields_take_defaults
        (interp_text : interp_error -> string) (py_repr_container : value -> string) :
  (forall d p self,
      request_method d = VStr "tools/call" ->
      (dict_get d "params" = None /\ p = []) \/ request_params d = VDict p ->
      dict_get p "name" = None ->
      _handle_mcp_request interp_text py_repr_container (decoded (VDict d)) self
      = (Returns (jsonify (error_envelope (request_id d) (-32601)
                             "Tool not found: None")), self))
  /\
  (forall d p tname entry self,
      request_method d = VStr "tools/call" ->
      request_params d = VDict p ->
      tool_name_of p = VStr tname ->
      dict_get (tools self) tname = Some entry ->
      dict_get p "arguments" = None ->
      _handle_mcp_request interp_text py_repr_container (decoded (VDict d)) self
      = (call_response interp_text (request_id d)
           (call_kwargs interp_text (t_handler entry) (VDict [])), self))
  /\
  (forall d, dict_get d "id" = None -> request_id d = VNone).
Proof.
  split; [|split].
  - intros d p self Hm Hp Hn.
    assert (Hp' : request_params d = VDict p).
    { destruct Hp as [[Hp ->] | Hp]; [|exact Hp].
      unfold request_params, dict_get_default. now rewrite Hp. }
    rewrite (handle_tool_not_found interp_text py_repr_container d p self Hm Hp').
    + unfold tool_name_of, dict_get_default. now rewrite Hn.
    + unfold tool_name_of, dict_get_default. now rewrite Hn.
  - intros d p tname entry self Hm Hp Hn He Ha.
    rewrite (handle_tool_call interp_text py_repr_container d p tname entry self
               Hm Hp Hn He).
    unfold arguments_of, dict_get_default. now rewrite Ha.
  - intros d Hid. unfold request_id, dict_get_default. now rewrite Hid.
Qed.

Lemma absent_fields_take_defaults_witness :
  _handle_mcp_request Scenario.wording Scenario.rendering
    (decoded (VDict [("method", VStr "tools/call")])) Scenario.server
  = (Returns (jsonify (error_envelope VNone (-32601) "Tool not found: None")),
     Scenario.server)
  /\
  _handle_mcp_request Scenario.wording Scenario.rendering
    (decoded (VDict [("method", VStr "tools/call");
            ("params", VDict [("name", VStr "find_pharmacy")])]))
    Scenario.server
  = (call_response Scenario.wording VNone
       (tool_pharmacy_locator_execute Scenario.collaborators
          (VDict [("city", VStr "Ouagadougou"); ("emergency", VBool false)])),
     Scenario.server).
Proof.
  destruct (absent_fields_take_defaults Scenario.wording Scenario.rendering)
    as (Hname & Hargs & _).
  split.
  - apply (Hname [("method", VStr "tools/call")] [] Scenario.server);
      [reflexivity | left; split; reflexivity | reflexivity].
  - pose proof (fun entry He =>
                  Hargs [("method", VStr "tools/call");
                         ("params", VDict [("name", VStr "find_pharmacy")])]
                        [("name", VStr "find_pharmacy")]
                        "find_pharmacy" entry Scenario.server
                        eq_refl eq_refl eq_refl He eq_refl) as H.
    specialize (H _ eq_refl). exact H.
Defined.

(** X15. The answer to [initialize] does not depend on the registry: after
    any registrations the result is the one of the server before them,
    protocol version 2024-11-05, the name and version given at
    construction, and [listChanged] false. *)
Theorem initialize_ignores_registrations
        (interp_text : interp_error -> string) (py_repr_container : value -> string)
        (rs : list Registration) (self : MCPServer) d :
  request_method d = VStr "initialize" ->
  _handle_mcp_request interp_text py_repr_container (decoded (VDict d)) (register_all rs self)
  = (Returns (jsonify (result_envelope (request_id d)
       (VDict [("protocolVersion", VStr "2024-11-05");
               ("serverInfo", VDict [("name", VStr (name self));
                                     ("version", VStr (version self))]);
               ("capabilities",
                VDict [("tools", VDict [("listChanged", VBool false)])])]))),
     register_all rs self).
Proof.
  intros Hm. rewrite handle_initialize by exact Hm.
  assert (Hnv : name (register_all rs self) = name self /\
                version (register_all rs self) = version self).
  { revert self. induction rs as [|r rs IH]; intros self; simpl; [auto|].
    destruct (IH (register r self)) as [-> ->]. auto. }
  destruct Hnv as [Hn Hv]. unfold initialize_result. now rewrite Hn, Hv.
Qed.

Lemma initialize_ignores_registrations_witness :
  _handle_mcp_request Scenario.wording Scenario.rendering
    (decoded (VDict [("id", VStr "a"); ("method", VStr "initialize")])) Scenario.test_server
  = (Returns (jsonify (result_envelope (VStr "a")
       (VDict [("protocolVersion", VStr "2024-11-05");
               ("serverInfo", VDict [("name", VStr "test"); ("version", VStr "2.0.0")]);
               ("capabilities",
                VDict [("tools", VDict [("listChanged", VBool false)])])]))),
     Scenario.test_server).
Proof.
  apply (initialize_ignores_registrations Scenario.wording Scenario.rendering
           [Scenario.echo_registration; Scenario.boom_registration]
           (MCPServer_init "test" "Test server" "2.0.0")
           [("id", VStr "a"); ("method", VStr "initialize")]).
  reflexivity.
Defined.

(* ================================================================= *)
(** ** The validation of [server.py] *)

Lemma blank_or_shorter_rejects interp_text v n :
  truthy v = false \/ (exists s, v = VStr s /\ (List.length (strip s) < n)%nat) ->
  ServerV1.blank_or_shorter interp_text v n = Returns true.
Proof.
  unfold ServerV1.blank_or_shorter.
  intros [Hf | (s & -> & Hlen)].
  - now rewrite Hf.
  - destruct (truthy (VStr s)); simpl; [|reflexivity].
    f_equal. now apply Nat.ltb_lt.
Qed.

(** X16. In [server.py], [get_health_advice] answers blank or short
    symptoms itself: when the argument is falsy (empty string, null) or a
    string that keeps fewer than 3 characters once stripped, white space
    only included, the handler returns its [status: error] value and the
    collaborator is not called, so the answer is the same whatever the
    collaborator does.  [get_government_service_info] does the same below
    2 characters. *)
Theorem short_input_is_rejected_before_the_collaborator
        (interp_text : interp_error -> string) (T : ToolModules) :
  (forall kwargs v,
      binds (h_params (ServerV1.get_health_advice interp_text T)) kwargs ->
      dict_get kwargs "symptoms" = Some v ->
      truthy v = false \/ (exists s, v = VStr s /\ (List.length (strip s) < 3)%nat) ->
      call_kwargs interp_text (ServerV1.get_health_advice interp_text T) (VDict kwargs)
      = Returns (VDict [
          ("status", VStr "error");
          ("message", VStr "Veuillez décrire vos symptômes (minimum 3 caractères). Exemple: 'mal de tête', 'fièvre'")]))
  /\
  (forall kwargs v,
      binds (h_params (ServerV1.get_government_service_info interp_text T)) kwargs ->
      dict_get kwargs "service_name" = Some v ->
      truthy v = false \/ (exists s, v = VStr s /\ (List.length (strip s) < 2)%nat) ->
      call_kwargs interp_text (ServerV1.get_government_service_info interp_text T)
        (VDict kwargs)
      = Returns (VDict [
          ("status", VStr "error");
          ("message", VStr "Veuillez préciser le service recherché. Services disponibles: Passeport, CNIB, Permis de conduire, Acte de naissance, Certificat de nationalité, Casier judiciaire, Carte grise, Visa")])).
Proof.
  split; intros kwargs v Hb Hv Hshort; unfold call_kwargs; rewrite binds_bind by exact Hb.
  - cbn [h_body h_params ServerV1.get_health_advice].
    rewrite arg_required_first. unfold dict_get_default. rewrite Hv.
    now rewrite blank_or_shorter_rejects.
  - cbn [h_body h_params ServerV1.get_government_service_info].
    rewrite arg_required_first. unfold dict_get_default. rewrite Hv.
    now rewrite blank_or_shorter_rejects.
Qed.

Lemma short_input_is_rejected_before_the_collaborator_witness :
  call_kwargs Scenario.wording
    (ServerV1.get_health_advice Scenario.wording Scenario.collaborators)
    (VDict [("symptoms", VStr "  ab   "); ("age", VInt 40)])
  = Returns (VDict [
      ("status", VStr "error");
      ("message", VStr "Veuillez décrire vos symptômes (minimum 3 caractères). Exemple: 'mal de tête', 'fièvre'")]).
Proof.
  apply (proj1 (short_input_is_rejected_before_the_collaborator
                  Scenario.wording Scenario.collaborators)
               [("symptoms", VStr "  ab   "); ("age", VInt 40)] (VStr "  ab   ")).
  - split.
    + intros k [<- | [<- | []]]; reflexivity.
    + intros q [H | [H | [H | []]]]; try discriminate H.
      injection H as <-. reflexivity.
  - reflexivity.
  - right. exists "  ab   ". split; [reflexivity | vm_compute; lia].
Defined.

Lemma blank_or_shorter_accepts interp_text s n :
  (S n <= List.length (strip s))%nat ->
  ServerV1.blank_or_shorter interp_text (VStr s) (S n) = Returns false.
Proof.
  intros Hlen. unfold ServerV1.blank_or_shorter.
  rewrite (strip_empty_short s n Hlen). simpl. f_equal. now apply Nat.ltb_ge.
Qed.

(** X17. In [server.py], input that passes the validation reaches the
    collaborator untouched: with symptoms that keep at least 3 characters
    once stripped, [get_health_advice] returns what
    [tool_health_advice.get_health_advice] returns on the bound parameters,
    the symptoms passed as given, not stripped; likewise
    [get_government_service_info] from 2 characters on.  With X16 this puts
    the thresholds at exactly 3 and 2 characters. *)
Theorem validated_input_reaches_the_collaborator
        (interp_text : interp_error -> string) (T : ToolModules) :
  (forall kwargs s,
      binds (h_params (ServerV1.get_health_advice interp_text T)) kwargs ->
      dict_get kwargs "symptoms" = Some (VStr s) ->
      (3 <= List.length (strip s))%nat ->
      call_kwargs interp_text (ServerV1.get_health_advice interp_text T) (VDict kwargs)
      = tool_health_advice_get_health_advice T
          [("symptoms", VStr s);
           ("age", bound_value kwargs "age" (Some (VInt 30)));
           ("sex", bound_value kwargs "sex" (Some (VStr "male")))])
  /\
  (forall kwargs s,
      binds (h_params (ServerV1.get_government_service_info interp_text T)) kwargs ->
      dict_get kwargs "service_name" = Some (VStr s) ->
      (2 <= List.length (strip s))%nat ->
      call_kwargs interp_text (ServerV1.get_government_service_info interp_text T)
        (VDict kwargs)
      = tool_government_services_execute T (VDict [("service_name", VStr s)])).
Proof.
  split; intros kwargs s Hb Hv Hlen; unfold call_kwargs; rewrite binds_bind by exact Hb.
  - set (env := bound_params (h_params (ServerV1.get_health_advice interp_text T)) kwargs).
    assert (Harg : arg env "symptoms" = VStr s).
    { unfold env. cbn [h_params ServerV1.get_health_advice].
      rewrite arg_required_first. unfold dict_get_default. now rewrite Hv. }
    cbn [h_body ServerV1.get_health_advice]. rewrite !Harg.
    rewrite (blank_or_shorter_accepts interp_text s 2 Hlen).
    reflexivity.
  - set (env := bound_params
                  (h_params (ServerV1.get_government_service_info interp_text T)) kwargs).
    assert (Harg : arg env "service_name" = VStr s).
    { unfold env. cbn [h_params ServerV1.get_government_service_info].
      rewrite arg_required_first. unfold dict_get_default. now rewrite Hv. }
    cbn [h_body ServerV1.get_government_service_info]. rewrite !Harg.
    rewrite (blank_or_shorter_accepts interp_text s 1 Hlen).
    reflexivity.
Qed.

Lemma validated_input_reaches_the_collaborator_witness :
  call_kwargs Scenario.wording
    (ServerV1.get_government_service_info Scenario.wording Scenario.collaborators)
    (VDict [("service_name", VStr " ID ")])
  = Returns (VDict [("status", VStr "success");
                    ("input", VDict [("service_name", VStr " ID ")])]).
Proof.
  apply (proj2 (validated_input_reaches_the_collaborator
                  Scenario.wording Scenario.collaborators)
               [("service_name", VStr " ID ")] " ID ").
  - split.
    + intros k [<- | []]. reflexivity.
    + intros q [H | []]. injection H as <-. reflexivity.
  - reflexivity.
  - vm_compute. lia.
Defined.

(* ================================================================= *)
(** ** The advertised schemas *)

Lemma register_all_entries rs : forall self k entry,
  In (k, entry) (tools (register_all rs self)) ->
  In (k, entry) (tools self) \/ exists r, In r rs /\ k = r_name r /\ entry = entry_of r.
Proof.
  induction rs as [|r rs IH]; intros self k entry Hin; simpl in Hin; [auto|].
  apply IH in Hin as [Hin | (r' & Hr' & Hk & He)].
  - rewrite register_tools_eq in Hin.
    apply In_dict_set in Hin as [[-> ->] | Hin]; [|auto].
    right. exists r. split; [now left | auto].
  - right. exists r'. split; [now right | auto].
Qed.

(** X19. Whatever [parameters] the registrations passed, every schema that
    [tools/list] advertises is an object schema with the three fields
    [type], [properties] and [required]: [type] is "object", and a
    registration that gave no [properties] or no [required] is listed with
    the empty object or the empty list.  Other keys of [parameters] are not
    advertised. *)
Theorem listed_schemas_are_object_schemas
        (interp_text : interp_error -> string) (py_repr_container : value -> string)
        (sname sdescr sversion : string) (rs : list Registration) d :
  request_method d = VStr "tools/list" ->
  exists listing,
    _handle_mcp_request interp_text py_repr_container (decoded (VDict d))
      (register_all rs (MCPServer_init sname sdescr sversion))
    = (Returns (jsonify (result_envelope (request_id d)
                           (VDict [("tools", VList listing)]))),
       register_all rs (MCPServer_init sname sdescr sversion)) /\
    forall item,
      In item listing ->
      exists r,
        In r rs /\
        item = VDict [("name", VStr (r_name r));
                      ("description", VStr (r_description r));
                      ("inputSchema",
                       VDict [("type", VStr "object");
                              ("properties",
                               dict_get_default (r_parameters r) "properties" (VDict []));
                              ("required",
                               dict_get_default (r_parameters r) "required" (VList []))])].
Proof.
  intros Hm.
  set (self := register_all rs (MCPServer_init sname sdescr sversion)).
  exists (map tool_listing (dict_values (tools self))). split.
  - now apply handle_tools_list.
  - intros item Hin. apply in_map_iff in Hin as (entry & <- & Hin).
    unfold dict_values in Hin. apply in_map_iff in Hin as ([k e] & He & Hin).
    simpl in He. subst e.
    apply register_all_entries in Hin as [[] | (r & Hr & _ & ->)].
    exists r. split; [exact Hr | reflexivity].
Qed.

Lemma listed_schemas_are_object_schemas_witness :
  exists listing,
    _handle_mcp_request Scenario.wording Scenario.rendering
      (decoded (VDict [("id", VInt 1); ("method", VStr "tools/list")])) Scenario.test_server
    = (Returns (jsonify (result_envelope (VInt 1) (VDict [("tools", VList listing)]))),
       Scenario.test_server) /\
    In (VDict [("name", VStr "boom"); ("description", VStr "Boom");
               ("inputSchema",
                VDict [("type", VStr "object"); ("properties", VDict []);
                       ("required", VList [])])])
       listing.
Proof.
  destruct (listed_schemas_are_object_schemas Scenario.wording Scenario.rendering
              "test" "Test server" "2.0.0"
              [Scenario.echo_registration; Scenario.boom_registration]
              [("id", VInt 1); ("method", VStr "tools/list")] eq_refl)
    as (listing & H & _).
  exists listing. split; [exact H|].
  injection H as <-. right. left. reflexivity.
Defined.
